(** * tstl: a line-oriented black-box test runner (tstl.py)

    A shallow embedding of [tstl.py] and the properties of its script
    parser ([read_test]), its executor ([run_test]) and its command-line
    front end ([cmd_run], [cmd_new], [main]).

    Conventions of the embedding.
    - A Python [str] is a [string]; a character is a code point below 256.
      What is written to the child is given by the text that is encoded.
      What is read from the child is [bytes]: they are given by the text
      that [decode("utf-8")] makes of them or, when they are not UTF-8, by
      the message of the error that decoding raises.
    - A generator is the finite sequence of what it yields, ended by a
      normal stop or by the exception it raises ([gen]).
    - The child process, its pipes and the buffer in front of its stdin are
      the environment: an abstract state machine ([Program]).  What Python
      itself keeps in the handle (the [closed] flag of [p.stdin], the
      [returncode]) is modelled concretely ([Popen]).
    - The file system and [shutil.which] are the record [OS].
    - Not represented: a launch of the child that fails, a write or a flush
      that blocks for ever because the pipe is full and the child does not
      read, and an [open] for writing that fails. *)

From Stdlib Require Import String Ascii List Bool Arith Lia DecimalString.
Import ListNotations.
Open Scope string_scope.

(** ** Python strings *)

Module Py.

Definition chr (n : nat) : string := String (ascii_of_nat n) EmptyString.

Definition nl : string := chr 10.
Definition tab : string := chr 9.
Definition dquote : string := chr 34.

(** [s[n:]] for [0 <= n]. *)
Fixpoint slice_from (n : nat) (s : string) : string :=
  match n, s with
  | 0, _ => s
  | S _, EmptyString => EmptyString
  | S n', String _ s' => slice_from n' s'
  end.

(** [s[:n]] for [0 <= n]. *)
Fixpoint slice_to (n : nat) (s : string) : string :=
  match n, s with
  | 0, _ => EmptyString
  | S _, EmptyString => EmptyString
  | S n', String c s' => String c (slice_to n' s')
  end.

(** [s[:-1]]: everything but the last character; the empty string stays
    empty. *)
Definition slice_to_minus1 (s : string) : string :=
  slice_to (String.length s - 1) s.

(** [s.startswith(t)]. *)
Definition startswith (s t : string) : bool := String.prefix t s.

(** [s.endswith(t)]. *)
Definition endswith (s t : string) : bool :=
  Nat.leb (String.length t) (String.length s) &&
  String.eqb (slice_from (String.length s - String.length t) s) t.

(** [c.isspace()] for a code point below 256: U+0009..U+000D,
    U+001C..U+0020, U+0085 and U+00A0. *)
Definition isspace (c : ascii) : bool :=
  let n := nat_of_ascii c in
  (Nat.leb 9 n && Nat.leb n 13) || (Nat.leb 28 n && Nat.leb n 32)
  || Nat.eqb n 133 || Nat.eqb n 160.

Fixpoint lstrip (s : string) : string :=
  match s with
  | EmptyString => EmptyString
  | String c s' => if isspace c then lstrip s' else s
  end.

Fixpoint rstrip (s : string) : string :=
  match s with
  | EmptyString => EmptyString
  | String c s' =>
      match rstrip s' with
      | EmptyString => if isspace c then EmptyString else String c EmptyString
      | r => String c r
      end
  end.

(** [s.strip()]. *)
Definition strip (s : string) : string := rstrip (lstrip s).

(** [sep.join(l)]. *)
Definition join (sep : string) (l : list string) : string :=
  String.concat sep l.

(** [str(n)] for a natural number. *)
Definition str (n : nat) : string := NilEmpty.string_of_uint (Nat.to_uint n).

(** [t in s] for strings. *)
Fixpoint contains (s t : string) : bool :=
  String.prefix t s ||
  match s with
  | EmptyString => false
  | String _ s' => contains s' t
  end.

(** [f.readlines()] on a text whose line ends are already [\n]: each line
    keeps its newline; a last line without one is kept as it is. *)
Fixpoint readlines_acc (cur : string) (s : string) : list string :=
  match s with
  | EmptyString =>
      match cur with
      | EmptyString => []
      | _ => [cur]
      end
  | String c s' =>
      if Ascii.eqb c (ascii_of_nat 10)
      then (cur ++ nl) :: readlines_acc EmptyString s'
      else readlines_acc (cur ++ String c EmptyString) s'
  end.

Definition readlines (s : string) : list string := readlines_acc EmptyString s.

End Py.

(** ** Exceptions and outcomes *)

(** [ValueError msg] is a [ValueError] or an instance of one of its
    subclasses, [msg] being what [str(e)] gives. *)
Inductive exn : Type :=
| ValueError (msg : string)
| BrokenPipeError
| KeyError (key : string)
| OSError (path : string).

(** [UnicodeDecodeError] is a subclass of [ValueError]: an
    [except ValueError] catches it. *)
Definition UnicodeDecodeError (message : string) : exn := ValueError message.

(** What a read from the child returns.  [Utf8 text] are the bytes that
    encode [text] (no bytes at all for the empty text); [NotUtf8 message]
    are bytes that are not valid UTF-8, and so not empty, on which
    [decode("utf-8")] raises [UnicodeDecodeError] with that message. *)
Inductive bytes : Type :=
| Utf8 (text : string)
| NotUtf8 (message : string).

(** [b.decode("utf-8")]. *)
Definition decode (b : bytes) : string + exn :=
  match b with
  | Utf8 text => inl text
  | NotUtf8 message => inr (UnicodeDecodeError message)
  end.

(** What a call does: it returns, it raises, or it blocks for ever on a
    read from the child. *)
Inductive outcome (A : Type) : Type :=
| Returned (a : A)
| Raised (e : exn)
| Hangs.
Arguments Returned {A} a.
Arguments Raised {A} e.
Arguments Hangs {A}.

(** ** The script parser *)

Inductive kind : Type := input | end_input | output | end_output.

(** [KINDS], in the insertion order of the dict. *)
Definition KINDS : list (string * kind) :=
  [ (">>> ", input); ("!>>", end_input); ("<<< ", output); ("!<<", end_output) ].

Definition keys {A B} (d : list (A * B)) : list A := map fst d.

(** A directive as [read_test] yields it: [(kind, s, origin)]. *)
Definition directive : Type := kind * string * string.

Inductive gen : Type :=
| GStop
| GYield (d : directive) (rest : gen)
| GRaise (e : exn).

(** The [for maybe_this_kind_token in KINDS] loop: the last token that the
    line starts with wins. *)
Fixpoint scan_tokens (line : string) (toks : list string)
         (found : option (string * string)) : option (string * string) :=
  match toks with
  | [] => found
  | t :: toks' =>
      if Py.startswith line t
      then scan_tokens line toks'
             (Some (Py.slice_to (String.length t) line,
                    Py.slice_from (String.length t) line))
      else scan_tokens line toks' found
  end.

(** [KINDS[kind_token]]. *)
Fixpoint lookup {B} (d : list (string * B)) (k : string) : option B :=
  match d with
  | [] => None
  | (k', v) :: d' => if String.eqb k' k then Some v else lookup d' k
  end.

Definition invalid_test_message (origin : string) : string :=
  Py.nl ++ "Invalid test at " ++ origin
        ++ ". Expected line to start with one of "
        ++ Py.join ", " (keys KINDS) ++ ".".

Definition make_origin (absolute_testpath : string) (idx_line : nat) : string :=
  absolute_testpath ++ ":" ++ Py.str (idx_line + 1).

(** A line that the parser ignores: a comment or a blank line. *)
Definition skipped (line : string) : bool :=
  Py.startswith line "#" || String.eqb (Py.strip line) EmptyString.

(** The body of [read_test]'s loop over [enumerate(f.readlines())], from
    index [idx_line] on. *)
Fixpoint read_lines (absolute_testpath : string) (idx_line : nat)
         (lines : list string) : gen :=
  match lines with
  | [] => GStop
  | line :: lines' =>
      if Py.startswith line "#" then
        read_lines absolute_testpath (S idx_line) lines'
      else if String.eqb (Py.strip line) EmptyString then
        read_lines absolute_testpath (S idx_line) lines'
      else
        let origin := make_origin absolute_testpath idx_line in
        match scan_tokens line (keys KINDS) None with
        | None | Some (EmptyString, _) =>
            GRaise (ValueError (invalid_test_message origin))
        | Some (kind_token, s) =>
            match lookup KINDS kind_token with
            | Some kind => GYield (kind, s, origin)
                             (read_lines absolute_testpath (S idx_line) lines')
            | None => GRaise (KeyError kind_token)
            end
        end
  end.

(** ** The environment *)

(** The file system as the program sees it, [os.path.abspath] and
    [shutil.which]. *)
Record OS : Type := {
  abspath : string -> string;
  listdir : string -> list string;
  isdir : string -> bool;
  exists_ : string -> bool;
  (** the text of a file that [open(path, "r")] can read *)
  open_read : string -> option string;
  (** whether [shutil.which] finds the command *)
  which : string -> bool
}.

(** The program under test behind its pipes: the child, the operating
    system's pipes and the buffer of Python's writer in front of stdin. *)
Record Program : Type := {
  pstate : Type;
  (** the state right after [Popen(command, ...)] *)
  spawn : list string -> pstate;
  (** a [write] on the open stdin; [None]: it raises [BrokenPipeError] *)
  feed : pstate -> string -> option pstate;
  (** flush and close of the open stdin; [true]: the flush raises
      [BrokenPipeError] (the stream is closed all the same) *)
  shut : pstate -> bool * pstate;
  (** a [readline] on the merged output: the bytes of the line, none at
      end of stream; [None]: the read never returns *)
  emit : pstate -> option (bytes * pstate)
}.

(** [def read_test(path_test)]. *)
Definition read_test (os : OS) (path_test : string) : gen :=
  match open_read os path_test with
  | None => GRaise (OSError path_test)
  | Some text => read_lines (abspath os path_test) 0 (Py.readlines text)
  end.

(** ** The executor *)

Section Executor.

Context (os : OS) (prog : Program).

(** The handle [p]: the [closed] flag of [p.stdin], [p.returncode] (set
    only by [wait] and [poll]) and the state of the child. *)
Record Popen : Type := {
  stdin_closed : bool;
  returncode : option nat;
  child : pstate prog
}.

(** [sp.Popen(command, stdout=sp.PIPE, stdin=sp.PIPE, stderr=sp.STDOUT)]. *)
Definition popen (command : list string) : Popen :=
  {| stdin_closed := false; returncode := None; child := spawn prog command |}.

(** [p.stdin.write(data)]. *)
Definition stdin_write (p : Popen) (data : string) : Popen + exn :=
  if stdin_closed p then inr (ValueError "write to closed file")
  else
    match feed prog (child p) data with
    | Some c => inl {| stdin_closed := false; returncode := returncode p; child := c |}
    | None => inr BrokenPipeError
    end.

(** [p.stdin.close()]: nothing happens on a stream that is closed already;
    otherwise the buffer is flushed, the stream is closed, and a failure of
    the flush is raised afterwards.  The flag tells whether
    [BrokenPipeError] is raised. *)
Definition stdin_close (p : Popen) : Popen * bool :=
  if stdin_closed p then (p, false)
  else
    let '(broken, c) := shut prog (child p) in
    ({| stdin_closed := true; returncode := returncode p; child := c |}, broken).

(** [p.stdout.readline()]. *)
Definition stdout_readline (p : Popen) : option (bytes * Popen) :=
  match emit prog (child p) with
  | Some (line, c) =>
      Some (line, {| stdin_closed := stdin_closed p;
                     returncode := returncode p; child := c |})
  | None => None
  end.

Definition verdict : Type := bool * list string.

(** One turn of the loop of [run_test]: the loop goes on, or the function
    is left. *)
Inductive step : Type :=
| Continue (p : Popen)
| Leave (p : Popen) (r : outcome verdict).

Definition body (d : directive) (p : Popen) (result_lines : list string) : step :=
  let '(kind, s, origin) := d in
  match kind with
  | input =>
      match stdin_write p s with
      | inl p' => Continue p'
      | inr e => Leave p (Raised e)
      end
  | end_input =>
      match stdin_close p with
      | (p', false) => Continue p'
      | (p', true) =>
          Leave p' (Returned (false,
            (app result_lines
               ["At " ++ origin;
                   "Tried to close the standard input but it is already closed!"])))
      end
  | output =>
      match stdout_readline p with
      | None => Leave p Hangs
      | Some (linebytes, p') =>
          match decode linebytes with
          | inr e => Leave p' (Raised e)
          | inl line =>
              if negb (String.eqb line s) then
                let expected := Py.slice_to_minus1 s in
                let got := Py.slice_to_minus1 line in
                Leave p' (Returned (false,
                  (app result_lines
                     ["At " ++ origin;
                      "Expected" ++ Py.tab ++ Py.dquote ++ expected ++ Py.dquote;
                      "Got" ++ Py.tab ++ Py.tab ++ Py.dquote ++ got ++ Py.dquote])))
              else Continue p'
          end
      end
  | end_output =>
      match stdout_readline p with
      | None => Leave p Hangs
      | Some (linebytes, p') =>
          match linebytes with
          | Utf8 EmptyString => Continue p'
          | _ =>
              match decode linebytes with
              | inr e => Leave p' (Raised e)
              | inl line =>
                  let got := Py.slice_to_minus1 line in
                  Leave p' (Returned (false,
                    (app result_lines
                       ["Test failed at " ++ origin;
                        "Expected End-Of-File";
                        "Got" ++ Py.tab ++ Py.tab ++ Py.dquote ++ got ++ Py.dquote])))
              end
          end
      end
  end.

(** The [for kind, s, origin in read_test(path_test)] loop with the final
    [return True, result_lines]. *)
Fixpoint run_loop (g : gen) (p : Popen) (result_lines : list string)
  : Popen * outcome verdict :=
  match g with
  | GStop => (p, Returned (true, result_lines))
  | GRaise e => (p, Raised e)
  | GYield d rest =>
      match body d p result_lines with
      | Continue p' => run_loop rest p' result_lines
      | Leave p' r => (p', r)
      end
  end.

(** [def run_test(path_test, command)], with the handle as it is when the
    function is left. *)
Definition run_test (path_test : string) (command : list string)
  : Popen * outcome verdict :=
  run_loop (read_test os path_test) (popen command) [].

(** [n] turns of the loop that all go on: what is left of the generator and
    the handle afterwards. *)
Fixpoint advance (n : nat) (g : gen) (p : Popen) : option (gen * Popen) :=
  match n with
  | 0 => Some (g, p)
  | S n' =>
      match g with
      | GYield d rest =>
          match body d p [] with
          | Continue p' => advance n' rest p'
          | Leave _ _ => None
          end
      | _ => None
      end
  end.

(** The directives whose branch the loop enters, in order. *)
Fixpoint processed (g : gen) (p : Popen) : list directive :=
  match g with
  | GYield d rest =>
      d :: match body d p [] with
           | Continue p' => processed rest p'
           | Leave _ _ => []
           end
  | _ => []
  end.

End Executor.

(** ** The command line *)

(** What the program has written so far: standard output, standard error
    and the files it has created. *)
Record console : Type := {
  stdout : string;
  stderr : string;
  written : list (string * string)
}.

Definition silent : console :=
  {| stdout := EmptyString; stderr := EmptyString; written := [] |}.

(** [print(text, end=e)]. *)
Definition print_end (c : console) (text e : string) : console :=
  {| stdout := stdout c ++ text ++ e; stderr := stderr c; written := written c |}.

(** [print(text)]. *)
Definition print (c : console) (text : string) : console :=
  print_end c text Py.nl.

(** [print(text, file=sys.stderr)]. *)
Definition print_err (c : console) (text : string) : console :=
  {| stdout := stdout c; stderr := stderr c ++ text ++ Py.nl; written := written c |}.

(** [with open(filename, "w") as f: ...] leaving [text] in the file. *)
Definition write_file (c : console) (filename text : string) : console :=
  {| stdout := stdout c; stderr := stderr c;
     written := (written c ++ [(filename, text)])%list |}.

(** [def find_testpaths_in(path_root)]. *)
Definition find_testpaths_in (os : OS) (path_root : string) : list string :=
  filter (fun p => Py.endswith p ".tstl" && negb (isdir os p)) (listdir os path_root).

Section CommandLine.

Context (os : OS) (prog : Program).

(** The [for line in output: print("\t" + line)] loop. *)
Definition print_lines (c : console) (lines : list string) : console :=
  fold_left (fun c line => print c (Py.tab ++ line)) lines c.

(** The [for path_test in paths_test] loop of [cmd_run]; it returns
    [num_tests_passed]. *)
Fixpoint run_paths (command : list string) (paths_test : list string)
         (num_tests_passed : nat) (c : console) : console * outcome nat :=
  match paths_test with
  | [] => (c, Returned num_tests_passed)
  | path_test :: paths' =>
      let c := print_end c (Py.nl ++ "Running test " ++ path_test ++ " ... ")
                         EmptyString in
      match snd (run_test os prog path_test command) with
      | Raised e => (c, Raised e)
      | Hangs => (c, Hangs)
      | Returned (passed, lines) =>
          let c := if negb passed
                   then print_lines (print c "FAILED.") lines
                   else print c "passed." in
          let num_tests_passed :=
            if negb passed then num_tests_passed else num_tests_passed + 1 in
          run_paths command paths' num_tests_passed (print c EmptyString)
      end
  end.

(** [def cmd_run(args)]. *)
Definition cmd_run (args : list string) (c : console) : console * outcome unit :=
  if Nat.leb (length args) 1 then
    let c := print c "Invalid number of parameters provided to subcommand 'run'." in
    let c := print c ("USAGE: " ++ hd EmptyString args ++ " <command to test>") in
    (c, Returned tt)
  else
    let command := tl args in
    if negb (which os (hd EmptyString command)) then
      (print_err c ("Error: '" ++ hd EmptyString command
                      ++ "' is not executable. Exiting."),
       Returned tt)
    else
      let paths_test := find_testpaths_in os "." in
      let num_tests_total := length paths_test in
      match run_paths command paths_test 0 c with
      | (c, Returned num_tests_passed) =>
          (print c ("[" ++ Py.str num_tests_passed ++ "/"
                        ++ Py.str num_tests_total ++ "] tests passed."),
           Returned tt)
      | (c, Raised e) => (c, Raised e)
      | (c, Hangs) => (c, Hangs)
      end.

Definition example_test : string :=
  "# Test for wc" ++ Py.nl ++
  ">>> Lorem ipsum dolor sit amet." ++ Py.nl ++
  "!>>" ++ Py.nl ++
  "<<<       1       6      32" ++ Py.nl ++
  "!<<" ++ Py.nl.

(** [def cmd_new(args)]. *)
Definition cmd_new (args : list string) (c : console) : console * outcome unit :=
  let filename := if Nat.ltb 1 (length args)
                  then nth 1 args EmptyString else "basic.tstl" in
  if exists_ os filename then
    (print c (filename ++ " already exists."), Returned tt)
  else
    let c := write_file c filename example_test in
    (print c ("An example test was created in " ++ filename ++ "."), Returned tt).

Inductive subcommand : Type := run_cmd | new_cmd.

Definition SUBCOMMANDS : list (string * subcommand) :=
  [ ("run", run_cmd); ("r", run_cmd);
    ("new", new_cmd); ("init", new_cmd); ("i", new_cmd) ].

Definition call (f : subcommand) : list string -> console -> console * outcome unit :=
  match f with
  | run_cmd => cmd_run
  | new_cmd => cmd_new
  end.

Definition USAGE : string :=
  "USAGE:" ++ Py.nl ++
  "    tstl [SUBCOMMAND]" ++ Py.nl ++
  Py.nl ++
  "Subcommands:" ++ Py.nl ++
  "    run, r     run the tests" ++ Py.nl ++
  "    init, i    create an initial test file" ++ Py.nl ++
  Py.nl ++
  "Examples:" ++ Py.nl ++
  "    tstl run wc                         run the tests in the current directory" ++ Py.nl ++
  "                                        on the command wc" ++ Py.nl ++
  "    tstl run python3 ./myscript.py      run the tests in the current directory" ++ Py.nl ++
  "                                        on the command 'python3 ./myscript.py'" ++ Py.nl.

(** [def main()], with [sys.argv] as its argument.  [Raised e] is an
    exception that nothing catches: the interpreter ends with a traceback. *)
Definition main (argv : list string) : console * outcome unit :=
  if Nat.leb (length argv) 1 then
    (print_err silent USAGE, Returned tt)
  else
    let name_subcommand := nth 1 argv EmptyString in
    match lookup SUBCOMMANDS name_subcommand with
    | None => (silent, Raised (KeyError name_subcommand))
    | Some subcommand =>
        let args_subcommand := tl argv in
        match call subcommand args_subcommand silent with
        | (c, Raised (ValueError msg)) => (print c msg, Returned tt)
        | r => r
        end
    end.

End CommandLine.

(** ** Generators, substrings and sample environments *)

(** [g1] and then, when [g1] stops normally, [g2]. *)
Fixpoint gen_seq (g1 g2 : gen) : gen :=
  match g1 with
  | GStop => g2
  | GYield d rest => GYield d (gen_seq rest g2)
  | GRaise e => GRaise e
  end.

Definition is_end_input (d : directive) : bool :=
  match d with
  | (end_input, _, _) => true
  | _ => false
  end.

(** A working directory [/work] that holds the given files and a search
    path on which only [prog] is found. *)
Definition workdir (files : list (string * string)) : OS :=
  {| abspath := fun p => "/work/" ++ p;
     listdir := fun _ => map fst files;
     isdir := fun _ => false;
     exists_ := fun p => match lookup files p with Some _ => true | None => false end;
     open_read := lookup files;
     which := fun c => String.eqb c "prog" |}.

(** A child that ignores its input and prints the given lines. *)
Definition canned (lines : list string) : Program :=
  {| pstate := list string;
     spawn := fun _ => lines;
     feed := fun st _ => Some st;
     shut := fun st => (false, st);
     emit := fun st => match st with
                       | [] => Some (Utf8 EmptyString, [])
                       | l :: r => Some (Utf8 l, r)
                       end |}.

(** A child that exits at once: what is written stays in the buffer of the
    writer, and the flush of a buffer that is not empty finds the pipe
    broken. *)
Definition quitter : Program :=
  {| pstate := string;
     spawn := fun _ => EmptyString;
     feed := fun st data => Some (st ++ data);
     shut := fun st => (negb (String.eqb st EmptyString), EmptyString);
     emit := fun st => Some (Utf8 EmptyString, st) |}.

(** Sample scripts. *)

(** Two EndInput markers and an Output directive after them. *)
Definition twice_closed : OS :=
  workdir [("twice.tstl", "!>>" ++ Py.nl ++ "!>>" ++ Py.nl ++ "<<< late" ++ Py.nl)].

(** A line is written, stdin is closed, an Output directive follows. *)
Definition write_then_close : OS :=
  workdir [("pipe.tstl", ">>> x" ++ Py.nl ++ "!>>" ++ Py.nl ++ "<<< y" ++ Py.nl)].

Definition two_outputs : OS :=
  workdir [("t.tstl", "<<< hello" ++ Py.nl ++ "<<< world" ++ Py.nl)].

Definition one_output : OS :=
  workdir [("abc.tstl", "<<< abc" ++ Py.nl)].

Definition only_end_output : OS :=
  workdir [("e.tstl", "!<<" ++ Py.nl)].

Definition conversation : OS :=
  workdir [("ok.tstl", ">>> a" ++ Py.nl ++ "!>>" ++ Py.nl
                       ++ "<<< a" ++ Py.nl ++ "!<<" ++ Py.nl)].

(** A comment, a blank line and a line with no token. *)
Definition third_line_invalid : OS :=
  workdir [("bad.tstl", "# c" ++ Py.nl ++ Py.nl ++ "%%% nonsense" ++ Py.nl)].

(** A script with a line with no token, and a second script after it. *)
Definition two_files : OS :=
  workdir [("a.tstl", "%%% nonsense" ++ Py.nl); ("b.tstl", "!<<" ++ Py.nl)].

(** An Output directive on a last line that has no newline. *)
Definition unterminated_output : OS :=
  workdir [("u.tstl", "<<< abc")].

(** What a generator yields, and the exception it ends with, if any. *)
Fixpoint gen_directives (g : gen) : list directive :=
  match g with
  | GYield d rest => d :: gen_directives rest
  | _ => []
  end.

Fixpoint gen_end (g : gen) : option exn :=
  match g with
  | GStop => None
  | GYield _ rest => gen_end rest
  | GRaise e => Some e
  end.

(** Whether the line starts with one of the tokens of [KINDS]. *)
Definition starts_with_token (line : string) : bool :=
  existsb (Py.startswith line) (keys KINDS).

(** The indices, counted from [idx], of the lines that are not skipped. *)
Fixpoint unskipped (idx : nat) (lines : list string) : list nat :=
  match lines with
  | [] => []
  | line :: lines' =>
      if skipped line then unskipped (S idx) lines'
      else idx :: unskipped (S idx) lines'
  end.

(** Whether [run_test] returns [True] for the script. *)
Definition passes (os : OS) (prog : Program) (command : list string)
           (path_test : string) : bool :=
  match snd (run_test os prog path_test command) with
  | Returned (true, _) => true
  | _ => false
  end.

(** The strings of a list, one after the other. *)
Definition flat (l : list string) : string := fold_right append EmptyString l.

(** What [cmd_run] prints for a script on which [run_test] returns. *)
Definition file_report (os : OS) (prog : Program) (command : list string)
           (path_test : string) : string :=
  Py.nl ++ "Running test " ++ path_test ++ " ... " ++
  match snd (run_test os prog path_test command) with
  | Returned (true, _) => "passed." ++ Py.nl ++ Py.nl
  | Returned (false, lines) =>
      "FAILED." ++ Py.nl
        ++ flat (map (fun line => Py.tab ++ line ++ Py.nl) lines) ++ Py.nl
  | _ => EmptyString
  end.

(** The name of the file that [cmd_new] is asked to create. *)
Definition new_filename (args : list string) : string :=
  if Nat.ltb 1 (length args) then nth 1 args EmptyString else "basic.tstl".

(** More sample environments. *)

(** An Input directive after the EndInput marker. *)
Definition write_after_close : OS :=
  workdir [("late.tstl", "!>>" ++ Py.nl ++ ">>> x" ++ Py.nl)].

(** Two scripts that each expect one line. *)
Definition mixed_files : OS :=
  workdir [("a.tstl", "<<< a" ++ Py.nl); ("b.tstl", "<<< b" ++ Py.nl)].

(** A directory with nothing in it, and the same directory once it holds
    the example script. *)
Definition empty_dir : OS := workdir [].

Definition dir_with_example : OS := workdir [("basic.tstl", example_test)].

(** A child that keeps its output open and never prints. *)
Definition mute : Program :=
  {| pstate := unit;
     spawn := fun _ => tt;
     feed := fun st _ => Some st;
     shut := fun st => (false, st);
     emit := fun _ => None |}.

(** A child that prints one line that is not UTF-8, the single byte 0xff
    before the newline, and then ends its output. *)
Definition garbled : Program :=
  {| pstate := bool;
     spawn := fun _ => true;
     feed := fun st _ => Some st;
     shut := fun st => (false, st);
     emit := fun st =>
       if st
       then Some (NotUtf8 "'utf-8' codec can't decode byte 0xff in position 0: invalid start byte",
                  false)
       else Some (Utf8 EmptyString, false) |}.

(** A child whose pipe is broken as soon as something is written to it. *)
Definition broken : Program :=
  {| pstate := unit;
     spawn := fun _ => tt;
     feed := fun _ _ => None;
     shut := fun st => (false, st);
     emit := fun st => Some (Utf8 EmptyString, st) |}.

(** ** Properties of the string operations *)

Lemma slice_to_length s t : Py.slice_to (String.length s) (s ++ t) = s.
Proof. induction s as [|c s IH]; simpl; [now destruct t|now rewrite IH]. Qed.

Lemma length_append s t :
  String.length (s ++ t) = String.length s + String.length t.
Proof. induction s as [|c s IH]; simpl; [reflexivity|now rewrite IH]. Qed.

(** [[:-1]] takes the newline off a line that ends in one. *)
Lemma slice_to_minus1_newline text : Py.slice_to_minus1 (text ++ Py.nl) = text.
Proof.
  unfold Py.slice_to_minus1. rewrite length_append. simpl.
  replace (String.length text + 1 - 1) with (String.length text) by lia.
  apply slice_to_length.
Qed.

(** ** Properties of the executor's loop *)

Section LoopFacts.

Context (prog : Program).

Lemma run_loop_advance n : forall g p g' p',
  advance prog n g p = Some (g', p') ->
  run_loop prog g p [] = run_loop prog g' p' [].
Proof.
  induction n as [|n IH]; intros g p g' p' H; simpl in H.
  - now inversion H.
  - destruct g as [|d rest|e]; try discriminate.
    simpl. destruct (body prog d p []) as [q|q r]; try discriminate.
    now apply IH.
Qed.

Lemma advance_next n : forall g p d rest q q',
  advance prog n g p = Some (GYield d rest, q) ->
  body prog d q [] = Continue prog q' ->
  advance prog (S n) g p = Some (rest, q').
Proof.
  induction n as [|n IH]; intros g p d rest q q' H Hb.
  - simpl in H. inversion H; subst. simpl. now rewrite Hb.
  - remember (S n) as m. simpl. subst m.
    simpl in H. destruct g as [|d0 rest0|e]; try discriminate.
    destruct (body prog d0 p []) as [p1|p1 r]; try discriminate.
    eapply IH; eauto.
Qed.

(** Closing a stream that is closed already does nothing. *)
Lemma stdin_close_closed (p : Popen prog) :
  stdin_closed prog p = true -> stdin_close prog p = (p, false).
Proof. intros H. unfold stdin_close. now rewrite H. Qed.

Lemma body_returncode d p acc :
  returncode prog p = None ->
  match body prog d p acc with
  | Continue _ q | Leave _ q _ => returncode prog q = None
  end.
Proof.
  intros H. destruct d as [[k s] origin]. destruct k; simpl.
  - unfold stdin_write. destruct (stdin_closed prog p); simpl; auto.
    destruct (feed prog (child prog p) s); simpl; auto.
  - unfold stdin_close. destruct (stdin_closed prog p); simpl; auto.
    destruct (shut prog (child prog p)) as [[|] c]; simpl; auto.
  - unfold stdout_readline.
    destruct (emit prog (child prog p)) as [[[line|message] c]|]; simpl; auto.
    destruct (negb (String.eqb line s)); simpl; auto.
  - unfold stdout_readline.
    destruct (emit prog (child prog p)) as [[[[|a line]|message] c]|];
      simpl; auto.
Qed.

Lemma body_stdin_closed d p acc :
  match body prog d p acc with
  | Continue _ q | Leave _ q _ =>
      stdin_closed prog q = stdin_closed prog p || is_end_input d
  end.
Proof.
  destruct d as [[k s] origin]. destruct k; simpl.
  - unfold stdin_write. destruct (stdin_closed prog p) eqn:E; simpl.
    + now rewrite E.
    + destruct (feed prog (child prog p) s); simpl; now rewrite ?E.
  - unfold stdin_close. destruct (stdin_closed prog p) eqn:E; simpl.
    + now rewrite E.
    + destruct (shut prog (child prog p)) as [[|] c]; simpl; auto.
  - unfold stdout_readline.
    destruct (emit prog (child prog p)) as [[[line|message] c]|]; simpl;
      try now rewrite orb_false_r.
    destruct (negb (String.eqb line s)); simpl; now rewrite orb_false_r.
  - unfold stdout_readline.
    destruct (emit prog (child prog p)) as [[[[|a line]|message] c]|]; simpl;
      now rewrite orb_false_r.
Qed.

End LoopFacts.

(** ** What [run_test] does at each directive *)

Section ExecutorTheorems.

Context (os : OS) (prog : Program).

(** C2, as amended.  When the loop of [run_test] comes to an Output
    directive [(output, s, origin)], it reads one line from the child's
    output and decodes it as UTF-8.  Bytes that are not UTF-8 make the
    decoding raise, and the error leaves [run_test]: no verdict is
    returned.  Otherwise the whole line, newline included, is compared with
    the payload [s].  If they are equal the loop goes on with the next
    directive, the handle being the one left by that single read.  If they
    differ, [run_test] returns [False] at once, whatever directives follow,
    and the diagnostics are exactly the three lines of this mismatch: the
    location, the expected text and the actual text, a payload or a line
    that ends in a newline being shown without that newline.  (A read that
    never returns leaves [run_test] blocked.) *)
Theorem C2_output_directive :
  forall path_test command n s origin rest p,
    advance prog n (read_test os path_test) (popen prog command)
      = Some (GYield (output, s, origin) rest, p) ->
    match stdout_readline prog p with
    | None => run_test os prog path_test command = (p, Hangs)
    | Some (NotUtf8 message, p') =>
        run_test os prog path_test command
          = (p', Raised (UnicodeDecodeError message))
    | Some (Utf8 line, p') =>
        (line = s ->
           advance prog (S n) (read_test os path_test) (popen prog command)
             = Some (rest, p')) /\
        (line <> s ->
           exists expected got,
             run_test os prog path_test command
               = (p', Returned (false,
                    ["At " ++ origin;
                     "Expected" ++ Py.tab ++ Py.dquote ++ expected ++ Py.dquote;
                     "Got" ++ Py.tab ++ Py.tab ++ Py.dquote ++ got ++ Py.dquote]))
             /\ (forall text, s = text ++ Py.nl -> expected = text)
             /\ (forall text, line = text ++ Py.nl -> got = text))
    end.
Proof.
  intros path_test command n s origin rest p H.
  unfold run_test. rewrite (run_loop_advance prog n _ _ _ _ H).
  destruct (stdout_readline prog p) as [[[line|message] p']|] eqn:R.
  - split; intros E.
    + eapply advance_next; eauto. simpl. rewrite R. simpl.
      apply String.eqb_eq in E. now rewrite E.
    + exists (Py.slice_to_minus1 s), (Py.slice_to_minus1 line).
      split; [|split].
      * simpl. rewrite R. simpl. apply String.eqb_neq in E. now rewrite E.
      * intros text ->. apply slice_to_minus1_newline.
      * intros text ->. apply slice_to_minus1_newline.
  - simpl. now rewrite R.
  - simpl. now rewrite R.
Qed.

(** C4, as amended.  When the loop of [run_test] comes to an EndOutput
    directive, it reads one more line from the child's output.  If the
    read yields nothing (end of stream) the loop goes on with the next
    directive.  If it yields bytes, they are decoded as UTF-8: bytes that
    are not UTF-8 make the decoding raise, and the error leaves [run_test]
    with no verdict; otherwise [run_test] returns [False] at once with the
    location, [Expected End-Of-File] and the extra line, a line that ends
    in a newline being shown without that newline. *)
Theorem C4_end_output_directive :
  forall path_test command n s origin rest p,
    advance prog n (read_test os path_test) (popen prog command)
      = Some (GYield (end_output, s, origin) rest, p) ->
    match stdout_readline prog p with
    | None => run_test os prog path_test command = (p, Hangs)
    | Some (Utf8 EmptyString, p') =>
        advance prog (S n) (read_test os path_test) (popen prog command)
          = Some (rest, p')
    | Some (NotUtf8 message, p') =>
        run_test os prog path_test command
          = (p', Raised (UnicodeDecodeError message))
    | Some (Utf8 line, p') =>
        exists got,
          run_test os prog path_test command
            = (p', Returned (false,
                 ["Test failed at " ++ origin;
                  "Expected End-Of-File";
                  "Got" ++ Py.tab ++ Py.tab ++ Py.dquote ++ got ++ Py.dquote]))
          /\ (forall text, line = text ++ Py.nl -> got = text)
    end.
Proof.
  intros path_test command n s origin rest p H.
  unfold run_test. rewrite (run_loop_advance prog n _ _ _ _ H).
  destruct (stdout_readline prog p) as [[[[|a line]|message] p']|] eqn:R.
  - eapply advance_next; eauto. simpl. now rewrite R.
  - exists (Py.slice_to_minus1 (String a line)). split.
    + simpl. now rewrite R.
    + intros text ->. apply slice_to_minus1_newline.
  - simpl. now rewrite R.
  - simpl. now rewrite R.
Qed.

(** C5. When every directive of the script has been consumed and none of
    them took a failure branch (the loop went on [n] times and the
    generator is exhausted), [run_test] returns [True] with no
    diagnostics. *)
Theorem C5_all_consumed_passes :
  forall path_test command n p,
    advance prog n (read_test os path_test) (popen prog command)
      = Some (GStop, p) ->
    run_test os prog path_test command = (p, Returned (true, [])).
Proof.
  intros path_test command n p H.
  unfold run_test. now rewrite (run_loop_advance prog n _ _ _ _ H).
Qed.

(** C10. When the loop comes to an Output directive whose payload is not
    empty and the child's output is at its end (the read yields the empty
    string), [run_test] returns [False] through the mismatch branch: the
    diagnostics are the location, the expected text and an empty actual
    text, the same three lines as for any other mismatch. *)
Theorem C10_output_at_end_of_stream :
  forall path_test command n s origin rest p p',
    advance prog n (read_test os path_test) (popen prog command)
      = Some (GYield (output, s, origin) rest, p) ->
    s <> EmptyString ->
    stdout_readline prog p = Some (Utf8 EmptyString, p') ->
    run_test os prog path_test command
      = (p', Returned (false,
           ["At " ++ origin;
            "Expected" ++ Py.tab ++ Py.dquote ++ Py.slice_to_minus1 s ++ Py.dquote;
            "Got" ++ Py.tab ++ Py.tab ++ Py.dquote ++ Py.dquote])).
Proof.
  intros path_test command n s origin rest p p' H Hs R.
  unfold run_test. rewrite (run_loop_advance prog n _ _ _ _ H).
  simpl. rewrite R.
  destruct s as [|c s']; [congruence|]. reflexivity.
Qed.

(** C9, as amended.  [run_test] releases nothing on its way out: it never
    waits for the child, so the handle's [returncode] is still unset on
    every path, and the only close of stdin is the one of the EndInput
    branch, so stdin is closed when [run_test] is left exactly when the
    loop entered the branch of an EndInput directive. *)
Theorem C9_release_only_by_end_input :
  forall path_test command,
    let p := fst (run_test os prog path_test command) in
    returncode prog p = None /\
    stdin_closed prog p
      = existsb is_end_input
          (processed prog (read_test os path_test) (popen prog command)).
Proof.
  intros path_test command. unfold run_test.
  assert (G : forall g q,
             returncode prog q = None ->
             returncode prog (fst (run_loop prog g q [])) = None /\
             stdin_closed prog (fst (run_loop prog g q []))
               = stdin_closed prog q || existsb is_end_input (processed prog g q)).
  { induction g as [|d rest IH|e]; intros q Hq; simpl.
    - now rewrite orb_false_r.
    - pose proof (body_returncode prog d q [] Hq) as Hr.
      pose proof (body_stdin_closed prog d q []) as Hc.
      destruct (body prog d q []) as [q'|q' r]; simpl.
      + destruct (IH q' Hr) as [IH1 IH2]. split; [exact IH1|].
        rewrite IH2, Hc. now rewrite orb_assoc.
      + split; [exact Hr|]. now rewrite Hc, orb_false_r.
    - now rewrite orb_false_r. }
  destruct (G (read_test os path_test) (popen prog command) eq_refl) as [G1 G2].
  split; [exact G1|]. exact G2.
Qed.

End ExecutorTheorems.

(** ** Properties of the parser *)

Lemma startswith_slice_to t : forall line,
  Py.startswith line t = true -> Py.slice_to (String.length t) line = t.
Proof.
  unfold Py.startswith.
  induction t as [|c t IH]; intros line H.
  - reflexivity.
  - destruct line as [|c' line]; simpl in H; [discriminate|].
    destruct (ascii_dec c c') as [->|]; [|discriminate].
    simpl. now rewrite (IH line H).
Qed.

Lemma scan_tokens_none line toks : forall found,
  (forall t, In t toks -> Py.startswith line t = false) ->
  scan_tokens line toks found = found.
Proof.
  induction toks as [|t toks IH]; intros found H; simpl.
  - reflexivity.
  - rewrite (H t (or_introl eq_refl)). apply IH.
    intros t' Ht'. apply H. now right.
Qed.

Lemma scan_tokens_some line toks : forall found kind_token s,
  scan_tokens line toks found = Some (kind_token, s) ->
  found = Some (kind_token, s) \/
  (In kind_token toks /\ s = Py.slice_from (String.length kind_token) line).
Proof.
  induction toks as [|t toks IH]; intros found kind_token s H; simpl in H.
  - now left.
  - destruct (Py.startswith line t) eqn:E.
    + destruct (IH _ _ _ H) as [F|[F1 F2]].
      * inversion F; subst. right. split.
        -- left. symmetry. now apply startswith_slice_to.
        -- now rewrite (startswith_slice_to t line E).
      * right. split; [now right|exact F2].
    + destruct (IH _ _ _ H) as [F|[F1 F2]]; [now left|].
      right. split; [now right|exact F2].
Qed.

Lemma scan_tokens_keeps line toks : forall found,
  found <> None -> scan_tokens line toks found <> None.
Proof.
  induction toks as [|t toks IH]; intros found H; simpl; [exact H|].
  destruct (Py.startswith line t); apply IH; [discriminate|exact H].
Qed.

Lemma scan_tokens_found line toks : forall found,
  (exists t, In t toks /\ Py.startswith line t = true) ->
  scan_tokens line toks found <> None.
Proof.
  induction toks as [|t toks IH]; intros found [t' [Hin Ht']]; simpl.
  - destruct Hin.
  - destruct Hin as [->|Hin].
    + rewrite Ht'. apply scan_tokens_keeps. discriminate.
    + destruct (Py.startswith line t); apply IH; eauto.
Qed.

Lemma skipped_false line :
  skipped line = false ->
  Py.startswith line "#" = false /\ String.eqb (Py.strip line) EmptyString = false.
Proof. unfold skipped. intros H. now apply orb_false_iff in H. Qed.

(** A line that starts with none of the tokens ends the parse with the
    syntax error. *)
Lemma read_lines_invalid absolute idx line rest :
  skipped line = false ->
  (forall t, In t (keys KINDS) -> Py.startswith line t = false) ->
  read_lines absolute idx (line :: rest)
    = GRaise (ValueError (invalid_test_message (make_origin absolute idx))).
Proof.
  intros Hs Hn. destruct (skipped_false line Hs) as [H1 H2].
  cbn [read_lines]. rewrite H1, H2.
  now rewrite (scan_tokens_none line (keys KINDS) None Hn).
Qed.

(** A line that starts with a token yields one directive. *)
Lemma read_lines_directive absolute idx line rest :
  skipped line = false ->
  (exists t, In t (keys KINDS) /\ Py.startswith line t = true) ->
  exists kind s,
    read_lines absolute idx (line :: rest)
      = GYield (kind, s, make_origin absolute idx)
               (read_lines absolute (S idx) rest).
Proof.
  intros Hs Hm. destruct (skipped_false line Hs) as [H1 H2].
  cbn [read_lines]. rewrite H1, H2.
  pose proof (scan_tokens_found line (keys KINDS) None Hm) as Hf.
  destruct (scan_tokens line (keys KINDS) None) as [[kind_token s]|] eqn:E;
    [|congruence].
  destruct (scan_tokens_some _ _ _ _ _ E) as [F|[F _]]; [discriminate|].
  simpl in F.
  destruct F as [<-|[<-|[<-|[<-|[]]]]]; simpl; eauto.
Qed.

Lemma read_lines_app absolute pre : forall idx rest,
  read_lines absolute idx (pre ++ rest)%list
    = gen_seq (read_lines absolute idx pre)
              (read_lines absolute (idx + length pre) rest).
Proof.
  induction pre as [|line pre IH]; intros idx rest.
  - simpl. now rewrite Nat.add_0_r.
  - replace (idx + length (line :: pre)) with (S idx + length pre)
      by (simpl; lia).
    change ((line :: pre) ++ rest)%list with (line :: (pre ++ rest))%list.
    cbn [read_lines].
    destruct (Py.startswith line "#"); [apply IH|].
    destruct (String.eqb (Py.strip line) EmptyString); [apply IH|].
    destruct (scan_tokens line (keys KINDS) None) as [[kind_token s]|];
      [|reflexivity].
    destruct kind_token; [reflexivity|].
    destruct (lookup KINDS _); [|reflexivity].
    cbn [gen_seq]. now rewrite IH.
Qed.

Lemma invalid_test_message_text origin :
  invalid_test_message origin
    = Py.nl ++ "Invalid test at " ++ origin
        ++ ". Expected line to start with one of >>> , !>>, <<< , !<<.".
Proof. reflexivity. Qed.

(** C7. Take any line of a script file that the parser does not skip, at
    raw position [length pre] (so with [length pre] raw lines before it,
    comments and blank lines included).  The parser yields what the lines
    before it give and then deals with this line; its location is the
    absolute path of the file, a colon and the 1-based number
    [length pre + 1].  If the line starts with none of the four tokens the
    parser raises the syntax error, whose message names that location and
    lists the four tokens; if it starts with a token, the directive it
    yields carries that same location. *)
Theorem C7_location_of_line :
  forall os path_test text pre line post,
    open_read os path_test = Some text ->
    Py.readlines text = (pre ++ line :: post)%list ->
    skipped line = false ->
    let absolute := abspath os path_test in
    let origin := absolute ++ ":" ++ Py.str (length pre + 1) in
    let here := read_lines absolute (length pre) (line :: post) in
    read_test os path_test = gen_seq (read_lines absolute 0 pre) here /\
    ((forall t, In t (keys KINDS) -> Py.startswith line t = false) ->
       here = GRaise (ValueError
                (Py.nl ++ "Invalid test at " ++ origin
                   ++ ". Expected line to start with one of >>> , !>>, <<< , !<<."))) /\
    ((exists t, In t (keys KINDS) /\ Py.startswith line t = true) ->
       exists kind s,
         here = GYield (kind, s, origin)
                       (read_lines absolute (S (length pre)) post)).
Proof.
  intros os path_test text pre line post Ho Hl Hs absolute origin here.
  split; [|split].
  - unfold read_test. rewrite Ho, Hl. fold absolute.
    now rewrite read_lines_app.
  - intros Hn. unfold here.
    rewrite (read_lines_invalid absolute (length pre) line post Hs Hn).
    now rewrite invalid_test_message_text.
  - intros Hm. unfold here.
    exact (read_lines_directive absolute (length pre) line post Hs Hm).
Qed.

(** ** The loop of [cmd_run] and [main] *)

Section CommandLineTheorems.

Context (os : OS) (prog : Program).

Lemma run_paths_app command before : forall paths k c,
  run_paths os prog command (before ++ paths)%list k c
    = match run_paths os prog command before k c with
      | (c', Returned k') => run_paths os prog command paths k' c'
      | r => r
      end.
Proof.
  induction before as [|path_test before IH]; intros paths k c.
  - reflexivity.
  - change ((path_test :: before) ++ paths)%list
      with (path_test :: (before ++ paths))%list.
    cbn [run_paths].
    destruct (snd (run_test os prog path_test command)) as [[passed lines]|e|];
      try reflexivity.
    apply IH.
Qed.

(** An exception of [run_test] leaves the loop of [cmd_run] at that file. *)
Lemma run_paths_raised command path_test paths k c e :
  snd (run_test os prog path_test command) = Raised e ->
  run_paths os prog command (path_test :: paths) k c
    = (print_end c (Py.nl ++ "Running test " ++ path_test ++ " ... ") EmptyString,
       Raised e).
Proof. intros H. cbn [run_paths]. now rewrite H. Qed.

(** C3, as amended.  When the parser comes to a line that it does not skip
    and that starts with none of the four tokens, its syntax error leaves
    [run_test] and [cmd_run] and is caught in [main], which prints the
    message and ends.  So the whole run stops at that file: after what the
    earlier files printed there is only the [Running test ...] header of
    this file and the message; the file is not reported as [FAILED.], the
    files after it are not run and no summary is printed. *)
Theorem C3_syntax_error_aborts_run :
  forall argv0 sub c0 cargs before path_test after text pre line post n p c k,
    lookup SUBCOMMANDS sub = Some run_cmd ->
    which os c0 = true ->
    find_testpaths_in os "." = (before ++ path_test :: after)%list ->
    run_paths os prog (c0 :: cargs) before 0 silent = (c, Returned k) ->
    open_read os path_test = Some text ->
    Py.readlines text = (pre ++ line :: post)%list ->
    skipped line = false ->
    (forall t, In t (keys KINDS) -> Py.startswith line t = false) ->
    advance prog n (read_test os path_test) (popen prog (c0 :: cargs))
      = Some (read_lines (abspath os path_test) (length pre) (line :: post), p) ->
    main os prog (argv0 :: sub :: c0 :: cargs)
      = (print (print_end c (Py.nl ++ "Running test " ++ path_test ++ " ... ")
                          EmptyString)
               (invalid_test_message
                  (make_origin (abspath os path_test) (length pre))),
         Returned tt).
Proof.
  intros argv0 sub c0 cargs before path_test after text pre line post n p c k
         Hsub Hwhich Hfind Hbefore Hopen Hlines Hskip Hnone Hreach.
  assert (Hrun : snd (run_test os prog path_test (c0 :: cargs))
                 = Raised (ValueError (invalid_test_message
                     (make_origin (abspath os path_test) (length pre))))).
  { unfold run_test. rewrite (run_loop_advance prog n _ _ _ _ Hreach).
    now rewrite (read_lines_invalid _ _ _ _ Hskip Hnone). }
  unfold main. cbn [length Nat.leb nth]. rewrite Hsub.
  cbn [call tl]. unfold cmd_run. cbn [length Nat.leb tl hd].
  rewrite Hwhich. cbn [negb]. rewrite Hfind, run_paths_app, Hbefore.
  now rewrite (run_paths_raised _ _ _ _ _ _ Hrun).
Qed.

(** C8.  A subcommand name that is not in [SUBCOMMANDS] is looked up
    outside the [try] of [main]: the [KeyError] of the lookup is caught by
    nothing, and nothing has been printed when the program ends with it. *)
Theorem C8_unknown_subcommand_uncaught :
  forall rest,
    main os prog ("tstl" :: "bogus" :: rest) = (silent, Raised (KeyError "bogus")).
Proof. intros rest. reflexivity. Qed.

End CommandLineTheorems.

(** ** The executor on sample scripts *)

(** The failure branch of EndInput is taken when the flush of the close
    finds the pipe broken. *)
Example end_input_on_broken_pipe :
  run_test write_then_close quitter "pipe.tstl" ["prog"]
    = (Build_Popen quitter true None EmptyString,
       Returned (false,
         ["At /work/pipe.tstl:2";
          "Tried to close the standard input but it is already closed!"])).
Proof. reflexivity. Qed.

(** A line of the child that is not UTF-8: the decoding error is a
    [ValueError], so it comes to the handler of [main] like the syntax
    error of the parser; the message is printed and the run ends there. *)
Example decoding_error_is_printed :
  main one_output garbled ["tstl"; "run"; "prog"]
    = ({| stdout :=
            Py.nl ++ "Running test abc.tstl ... "
            ++ "'utf-8' codec can't decode byte 0xff in position 0: invalid start byte"
            ++ Py.nl;
          stderr := EmptyString;
          written := [] |},
       Returned tt).
Proof. reflexivity. Qed.

(** C1.  A second EndInput marker, processed while stdin is closed already,
    does not fail the test: closing a closed stream raises nothing, the
    loop goes on to the Output directive after it, and the test passes. *)
Theorem C1_second_end_input_passes :
  run_test twice_closed (canned ["late" ++ Py.nl]) "twice.tstl" ["prog"]
    = (Build_Popen (canned ["late" ++ Py.nl]) true None [],
       Returned (true, []))
  /\ processed (canned ["late" ++ Py.nl]) (read_test twice_closed "twice.tstl")
               (popen (canned ["late" ++ Py.nl]) ["prog"])
     = [ (end_input, Py.nl, "/work/twice.tstl:1");
         (end_input, Py.nl, "/work/twice.tstl:2");
         (output, "late" ++ Py.nl, "/work/twice.tstl:3") ].
Proof. split; reflexivity. Qed.

(** C6.  The displayed texts are [s[:-1]] and [line[:-1]]: a text that does
    not end in a newline loses its last character.  An actual line [abd]
    read at the end of the stream is shown as [ab], an extra line [tail] at
    an EndOutput as [tai], and the payload [abc] of a last script line
    without newline as [ab]. *)
Theorem C6_last_character_lost :
  snd (run_test one_output (canned ["abd"]) "abc.tstl" ["prog"])
    = Returned (false,
        ["At /work/abc.tstl:1";
         "Expected" ++ Py.tab ++ Py.dquote ++ "abc" ++ Py.dquote;
         "Got" ++ Py.tab ++ Py.tab ++ Py.dquote ++ "ab" ++ Py.dquote])
  /\ snd (run_test only_end_output (canned ["tail"]) "e.tstl" ["prog"])
    = Returned (false,
        ["Test failed at /work/e.tstl:1";
         "Expected End-Of-File";
         "Got" ++ Py.tab ++ Py.tab ++ Py.dquote ++ "tai" ++ Py.dquote])
  /\ snd (run_test unterminated_output (canned ["abc" ++ Py.nl]) "u.tstl" ["prog"])
    = Returned (false,
        ["At /work/u.tstl:1";
         "Expected" ++ Py.tab ++ Py.dquote ++ "ab" ++ Py.dquote;
         "Got" ++ Py.tab ++ Py.tab ++ Py.dquote ++ "abc" ++ Py.dquote]).
Proof. repeat split; reflexivity. Qed.

(** C2 fails as stated.  A line of the child that is not UTF-8 differs
    from the payload byte for byte, yet [run_test] returns no verdict: the
    decoding error leaves it.  And a mismatching line [xyz] that the child
    prints without a newline is reported as [xy], which is not the actual
    text. *)
Lemma C2_counterexample :
  run_test one_output garbled "abc.tstl" ["prog"]
    = (Build_Popen garbled false None false,
       Raised (ValueError
         "'utf-8' codec can't decode byte 0xff in position 0: invalid start byte"))
  /\ snd (run_test one_output (canned ["xyz"]) "abc.tstl" ["prog"])
     = Returned (false,
         ["At /work/abc.tstl:1";
          "Expected" ++ Py.tab ++ Py.dquote ++ "abc" ++ Py.dquote;
          "Got" ++ Py.tab ++ Py.tab ++ Py.dquote ++ "xy" ++ Py.dquote]).
Proof. split; reflexivity. Qed.

(** C4 fails as stated.  An extra line that is not UTF-8 gives no verdict:
    the decoding error leaves [run_test].  And an extra line [more] that
    the child prints without a newline is reported as [mor], which is not
    the content of the line. *)
Lemma C4_counterexample :
  run_test only_end_output garbled "e.tstl" ["prog"]
    = (Build_Popen garbled false None false,
       Raised (ValueError
         "'utf-8' codec can't decode byte 0xff in position 0: invalid start byte"))
  /\ snd (run_test only_end_output (canned ["more"]) "e.tstl" ["prog"])
     = Returned (false,
         ["Test failed at /work/e.tstl:1";
          "Expected End-Of-File";
          "Got" ++ Py.tab ++ Py.tab ++ Py.dquote ++ "mor" ++ Py.dquote]).
Proof. split; reflexivity. Qed.

(** C9 fails as stated: a script with no EndInput marker passes, and when
    [run_test] returns stdin is still open and the child has not been
    waited for. *)
Lemma C9_counterexample :
  snd (run_test one_output (canned ["abc" ++ Py.nl]) "abc.tstl" ["prog"])
    = Returned (true, [])
  /\ stdin_closed _
       (fst (run_test one_output (canned ["abc" ++ Py.nl]) "abc.tstl" ["prog"]))
     = false
  /\ returncode _
       (fst (run_test one_output (canned ["abc" ++ Py.nl]) "abc.tstl" ["prog"]))
     = None.
Proof. repeat split; reflexivity. Qed.

(** C3 fails as stated: the first of two scripts has a line with no token;
    the run ends normally after the message of the syntax error, the file
    is not reported as [FAILED.], the second script is never run and no
    summary is printed. *)
Lemma C3_counterexample :
  snd (main two_files (canned []) ["tstl"; "run"; "prog"]) = Returned tt
  /\ Py.contains (stdout (fst (main two_files (canned []) ["tstl"; "run"; "prog"])))
                 "FAILED." = false
  /\ Py.contains (stdout (fst (main two_files (canned []) ["tstl"; "run"; "prog"])))
                 "b.tstl" = false
  /\ Py.contains (stdout (fst (main two_files (canned []) ["tstl"; "run"; "prog"])))
                 "tests passed." = false.
Proof. repeat split; vm_compute; reflexivity. Qed.

(** ** The theorems at sample inputs *)

(** Two Output directives against a child whose second line differs. *)
Lemma C2_output_directive_witness :
  advance (canned ["hello" ++ Py.nl; "wrong" ++ Py.nl]) 1
          (read_test two_outputs "t.tstl")
          (popen (canned ["hello" ++ Py.nl; "wrong" ++ Py.nl]) ["prog"])
    = Some (GYield (output, "world" ++ Py.nl, "/work/t.tstl:2") GStop,
            Build_Popen (canned ["hello" ++ Py.nl; "wrong" ++ Py.nl])
                        false None ["wrong" ++ Py.nl])
  /\ run_test two_outputs (canned ["hello" ++ Py.nl; "wrong" ++ Py.nl])
              "t.tstl" ["prog"]
     = (Build_Popen (canned ["hello" ++ Py.nl; "wrong" ++ Py.nl]) false None [],
        Returned (false,
          ["At /work/t.tstl:2";
           "Expected" ++ Py.tab ++ Py.dquote ++ "world" ++ Py.dquote;
           "Got" ++ Py.tab ++ Py.tab ++ Py.dquote ++ "wrong" ++ Py.dquote])).
Proof.
  split; [reflexivity|].
  pose proof (C2_output_directive two_outputs
                (canned ["hello" ++ Py.nl; "wrong" ++ Py.nl])
                "t.tstl" ["prog"] 1 _ _ _ _ eq_refl) as H.
  simpl in H. destruct H as [_ H].
  destruct H as [expected [got [Hr [He Hg]]]]; [discriminate|].
  rewrite (He "world" eq_refl), (Hg "wrong" eq_refl) in Hr. exact Hr.
Defined.

(** An EndOutput directive against a child that still prints a line. *)
Lemma C4_end_output_directive_witness :
  advance (canned ["extra" ++ Py.nl]) 0 (read_test only_end_output "e.tstl")
          (popen (canned ["extra" ++ Py.nl]) ["prog"])
    = Some (GYield (end_output, Py.nl, "/work/e.tstl:1") GStop,
            Build_Popen (canned ["extra" ++ Py.nl]) false None
                        ["extra" ++ Py.nl])
  /\ run_test only_end_output (canned ["extra" ++ Py.nl]) "e.tstl" ["prog"]
     = (Build_Popen (canned ["extra" ++ Py.nl]) false None [],
        Returned (false,
          ["Test failed at /work/e.tstl:1";
           "Expected End-Of-File";
           "Got" ++ Py.tab ++ Py.tab ++ Py.dquote ++ "extra" ++ Py.dquote])).
Proof.
  split; [reflexivity|].
  pose proof (C4_end_output_directive only_end_output
                (canned ["extra" ++ Py.nl])
                "e.tstl" ["prog"] 0 _ _ _ _ eq_refl) as H.
  simpl in H. destruct H as [got [Hr Hg]].
  rewrite (Hg "extra" eq_refl) in Hr. exact Hr.
Defined.

(** A script of four directives that the child satisfies one by one. *)
Lemma C5_all_consumed_passes_witness :
  advance (canned ["a" ++ Py.nl]) 4 (read_test conversation "ok.tstl")
          (popen (canned ["a" ++ Py.nl]) ["prog"])
    = Some (GStop, Build_Popen (canned ["a" ++ Py.nl]) true None [])
  /\ run_test conversation (canned ["a" ++ Py.nl]) "ok.tstl" ["prog"]
     = (Build_Popen (canned ["a" ++ Py.nl]) true None [],
        Returned (true, [])).
Proof.
  split; [reflexivity|].
  apply (C5_all_consumed_passes conversation (canned ["a" ++ Py.nl])
           "ok.tstl" ["prog"] 4).
  reflexivity.
Defined.

(** An Output directive against a child that prints nothing. *)
Lemma C10_output_at_end_of_stream_witness :
  run_test one_output (canned []) "abc.tstl" ["prog"]
    = (Build_Popen (canned []) false None [],
       Returned (false,
         ["At /work/abc.tstl:1";
          "Expected" ++ Py.tab ++ Py.dquote ++ "abc" ++ Py.dquote;
          "Got" ++ Py.tab ++ Py.tab ++ Py.dquote ++ Py.dquote])).
Proof.
  apply (C10_output_at_end_of_stream one_output (canned [])
           "abc.tstl" ["prog"] 0 ("abc" ++ Py.nl) "/work/abc.tstl:1" GStop
           (popen (canned []) ["prog"])).
  - reflexivity.
  - discriminate.
  - reflexivity.
Defined.

(** A line with no token after a comment and a blank line is line 3; the
    second of two Output lines is line 2. *)
Lemma C7_location_of_line_witness :
  read_test third_line_invalid "bad.tstl"
    = GRaise (ValueError
        (Py.nl ++ "Invalid test at /work/bad.tstl:3"
           ++ ". Expected line to start with one of >>> , !>>, <<< , !<<."))
  /\ read_test two_outputs "t.tstl"
     = GYield (output, "hello" ++ Py.nl, "/work/t.tstl:1")
         (GYield (output, "world" ++ Py.nl, "/work/t.tstl:2") GStop).
Proof.
  split.
  - destruct (C7_location_of_line third_line_invalid "bad.tstl"
                ("# c" ++ Py.nl ++ Py.nl ++ "%%% nonsense" ++ Py.nl)
                ["# c" ++ Py.nl; Py.nl] ("%%% nonsense" ++ Py.nl) []
                eq_refl eq_refl eq_refl) as [H1 [H2 _]].
    rewrite H1, H2; [reflexivity|].
    intros t [<-|[<-|[<-|[<-|[]]]]]; reflexivity.
  - destruct (C7_location_of_line two_outputs "t.tstl"
                ("<<< hello" ++ Py.nl ++ "<<< world" ++ Py.nl)
                ["<<< hello" ++ Py.nl] ("<<< world" ++ Py.nl) []
                eq_refl eq_refl eq_refl) as [H1 [_ H3]].
    rewrite H1.
    destruct H3 as [kind [s H3]].
    + exists "<<< ". split; [simpl; tauto|reflexivity].
    + reflexivity.
Defined.

(** The whole output of a run whose first script has a line with no
    token. *)
Lemma C3_syntax_error_aborts_run_witness :
  main two_files (canned []) ["tstl"; "run"; "prog"]
    = ({| stdout := Py.nl ++ "Running test a.tstl ... " ++ Py.nl
                    ++ "Invalid test at /work/a.tstl:1"
                    ++ ". Expected line to start with one of >>> , !>>, <<< , !<<."
                    ++ Py.nl;
          stderr := EmptyString;
          written := [] |},
       Returned tt).
Proof.
  apply (C3_syntax_error_aborts_run two_files (canned [])
           "tstl" "run" "prog" [] [] "a.tstl" ["b.tstl"]
           ("%%% nonsense" ++ Py.nl) [] ("%%% nonsense" ++ Py.nl) [] 0
           (popen (canned []) ["prog"]) silent 0);
    try reflexivity.
  intros t [<-|[<-|[<-|[<-|[]]]]]; reflexivity.
Defined.

(** ** More on the parser *)

Lemma startswith_append t payload : Py.startswith (t ++ payload) t = true.
Proof.
  unfold Py.startswith. induction t as [|c t IH]; simpl.
  - now destruct payload.
  - destruct (ascii_dec c c) as [_|n]; [exact IH|now destruct n].
Qed.

Lemma slice_from_append t payload :
  Py.slice_from (String.length t) (t ++ payload) = payload.
Proof. induction t as [|c t IH]; simpl; [reflexivity|exact IH]. Qed.

Lemma startswith_split t line :
  Py.startswith line t = true ->
  line = t ++ Py.slice_from (String.length t) line.
Proof.
  unfold Py.startswith. revert line.
  induction t as [|c t IH]; intros line H.
  - reflexivity.
  - destruct line as [|c' line]; simpl in H; [discriminate|].
    destruct (ascii_dec c c') as [->|]; [|discriminate].
    simpl. now rewrite <- (IH line H).
Qed.

Lemma tokens_disjoint :
  forall line t1 t2,
    In t1 (keys KINDS) -> In t2 (keys KINDS) ->
    Py.startswith line t1 = true -> Py.startswith line t2 = true ->
    t1 = t2.
Proof.
  intros line t1 t2 H1 H2 S1 S2.
  apply startswith_slice_to in S1. apply startswith_slice_to in S2.
  simpl in H1, H2.
  destruct H1 as [<-|[<-|[<-|[<-|[]]]]];
    destruct H2 as [<-|[<-|[<-|[<-|[]]]]];
    try reflexivity;
    destruct line as [|a [|b line]]; simpl in S1, S2; congruence.
Qed.

Lemma scan_tokens_starts line toks : forall found kind_token s,
  scan_tokens line toks found = Some (kind_token, s) ->
  found = Some (kind_token, s) \/
  (In kind_token toks /\ Py.startswith line kind_token = true
   /\ s = Py.slice_from (String.length kind_token) line).
Proof.
  induction toks as [|t toks IH]; intros found kind_token s H; simpl in H.
  - now left.
  - destruct (Py.startswith line t) eqn:E.
    + destruct (IH _ _ _ H) as [F|[F1 [F2 F3]]].
      * inversion F; subst. rewrite (startswith_slice_to t line E).
        right. repeat split; auto. now left.
      * right. repeat split; auto. now right.
    + destruct (IH _ _ _ H) as [F|[F1 [F2 F3]]]; [now left|].
      right. repeat split; auto. now right.
Qed.

Lemma lookup_KINDS t k : In (t, k) KINDS -> lookup KINDS t = Some k.
Proof.
  simpl. intros [H|[H|[H|[H|[]]]]]; inversion H; reflexivity.
Qed.

Lemma token_line_not_skipped t payload :
  In t (keys KINDS) -> skipped (t ++ payload) = false.
Proof.
  simpl. unfold skipped, Py.strip.
  intros [<-|[<-|[<-|[<-|[]]]]]; simpl;
    destruct (Py.rstrip _); reflexivity.
Qed.

(** The directive of a line that starts with the token [t]. *)
Lemma read_lines_token absolute idx line rest t k :
  In (t, k) KINDS ->
  skipped line = false ->
  Py.startswith line t = true ->
  read_lines absolute idx (line :: rest)
    = GYield (k, Py.slice_from (String.length t) line, make_origin absolute idx)
             (read_lines absolute (S idx) rest).
Proof.
  intros Hk Hs Ht. destruct (skipped_false line Hs) as [H1 H2].
  assert (Hin : In t (keys KINDS)) by (apply (in_map fst) in Hk; exact Hk).
  cbn [read_lines]. rewrite H1, H2.
  pose proof (scan_tokens_found line (keys KINDS) None
                (ex_intro _ t (conj Hin Ht))) as Hf.
  destruct (scan_tokens line (keys KINDS) None) as [[kind_token s]|] eqn:E;
    [|congruence].
  destruct (scan_tokens_starts _ _ _ _ _ E) as [F|[F1 [F2 F3]]]; [discriminate|].
  rewrite (tokens_disjoint line kind_token t F1 Hin F2 Ht) in *.
  rewrite (lookup_KINDS t k Hk), F3.
  clear - Hin. simpl in Hin.
  destruct Hin as [<-|[<-|[<-|[<-|[]]]]]; reflexivity.
Qed.

(** X1.  The four tokens exclude one another: no line starts with two of
    them, so the order in which [read_test] tries them never matters. *)
Theorem X1_tokens_exclusive :
  forall line t1 t2,
    In t1 (keys KINDS) -> In t2 (keys KINDS) ->
    Py.startswith line t1 = true -> Py.startswith line t2 = true ->
    t1 = t2.
Proof. exact tokens_disjoint. Qed.

(** X2.  Writing a token of [KINDS] in front of any payload gives a line
    that [read_test] never skips and parses back into that kind and that
    payload, character for character, at the line's own number. *)
Theorem X2_token_payload_round_trip :
  forall absolute idx t k payload rest,
    In (t, k) KINDS ->
    read_lines absolute idx ((t ++ payload) :: rest)
      = GYield (k, payload, make_origin absolute idx)
               (read_lines absolute (S idx) rest).
Proof.
  intros absolute idx t k payload rest Hk.
  assert (Hin : In t (keys KINDS)) by (apply (in_map fst) in Hk; exact Hk).
  rewrite (read_lines_token absolute idx (t ++ payload) rest t k Hk
             (token_line_not_skipped t payload Hin) (startswith_append t payload)).
  now rewrite slice_from_append.
Qed.

(** What [read_test] does with one line. *)
Lemma read_lines_cases absolute idx line rest :
  (skipped line = true /\
   read_lines absolute idx (line :: rest) = read_lines absolute (S idx) rest)
  \/ (skipped line = false /\ starts_with_token line = false /\
      read_lines absolute idx (line :: rest)
        = GRaise (ValueError (invalid_test_message (make_origin absolute idx))))
  \/ (skipped line = false /\ starts_with_token line = true /\
      exists t k,
        In (t, k) KINDS /\ line = t ++ Py.slice_from (String.length t) line /\
        read_lines absolute idx (line :: rest)
          = GYield (k, Py.slice_from (String.length t) line,
                    make_origin absolute idx)
                   (read_lines absolute (S idx) rest)).
Proof.
  destruct (skipped line) eqn:Hs.
  - left. split; [reflexivity|].
    unfold skipped in Hs. cbn [read_lines].
    destruct (Py.startswith line "#"); [reflexivity|].
    simpl in Hs. now rewrite Hs.
  - right. destruct (starts_with_token line) eqn:Ht.
    + right. repeat split.
      unfold starts_with_token in Ht. apply existsb_exists in Ht.
      destruct Ht as [t [Hin Ht]].
      unfold keys in Hin. apply in_map_iff in Hin.
      destruct Hin as [[t' k] [E Hin]]. simpl in E. subst t'.
      exists t, k. repeat split; auto.
      * now apply startswith_split.
      * now apply read_lines_token.
    + left. repeat split. apply read_lines_invalid; [exact Hs|].
      intros t Hin. unfold starts_with_token in Ht.
      destruct (Py.startswith line t) eqn:E; [|reflexivity].
      rewrite <- Ht. symmetry. apply existsb_exists. eauto.
Qed.

Lemma read_lines_raises :
  forall absolute lines idx e,
    gen_end (read_lines absolute idx lines) = Some e ->
    exists pre line post,
      lines = (pre ++ line :: post)%list /\
      (forall l, In l pre -> skipped l = true \/ starts_with_token l = true) /\
      skipped line = false /\ starts_with_token line = false /\
      e = ValueError (invalid_test_message
                        (make_origin absolute (idx + length pre))).
Proof.
  intros absolute lines. induction lines as [|line rest IH]; intros idx e H.
  - discriminate.
  - destruct (read_lines_cases absolute idx line rest)
      as [[Hs E]|[[Hs [Ht E]]|[Hs [Ht [t [k [_ [_ E]]]]]]]]; rewrite E in H.
    + destruct (IH _ _ H) as [pre [l [post [E1 [E2 [E3 [E4 E5]]]]]]].
      exists (line :: pre), l, post. rewrite E1. repeat split; auto.
      * intros l' [<-|Hl]; auto.
      * rewrite E5. simpl. now rewrite Nat.add_succ_r.
    + exists [], line, rest. simpl in *. inversion H.
      rewrite Nat.add_0_r. repeat split; auto.
    + simpl in H.
      destruct (IH _ _ H) as [pre [l [post [E1 [E2 [E3 [E4 E5]]]]]]].
      exists (line :: pre), l, post. rewrite E1. repeat split; auto.
      * intros l' [<-|Hl]; auto.
      * rewrite E5. simpl. now rewrite Nat.add_succ_r.
Qed.

(** X3.  The only exception that the parsing of the lines of a script
    raises is the syntax error, and it is the one of the first line that is
    neither skipped nor starts with a token: the lookup of the token in
    [KINDS] never fails. *)
Theorem X3_only_syntax_errors :
  forall absolute lines idx e,
    gen_end (read_lines absolute idx lines) = Some e ->
    exists pre line post,
      lines = (pre ++ line :: post)%list /\
      (forall l, In l pre -> skipped l = true \/ starts_with_token l = true) /\
      skipped line = false /\ starts_with_token line = false /\
      e = ValueError (invalid_test_message
                        (make_origin absolute (idx + length pre))).
Proof. exact read_lines_raises. Qed.

(** X4.  When every line of a script is skipped or starts with a token,
    the parser ends normally and yields one directive for each line that
    is not skipped, in the order of the file, each with the 1-based number
    of its own line. *)
Theorem X4_one_directive_per_line :
  forall absolute lines idx,
    (forall l, In l lines -> skipped l = true \/ starts_with_token l = true) ->
    gen_end (read_lines absolute idx lines) = None /\
    map snd (gen_directives (read_lines absolute idx lines))
      = map (make_origin absolute) (unskipped idx lines).
Proof.
  intros absolute lines. induction lines as [|line rest IH]; intros idx H.
  - split; reflexivity.
  - assert (Hrest : forall l, In l rest ->
                      skipped l = true \/ starts_with_token l = true)
      by (intros l Hl; apply H; now right).
    destruct (IH (S idx) Hrest) as [IH1 IH2].
    destruct (read_lines_cases absolute idx line rest)
      as [[Hs E]|[[Hs [Ht E]]|[Hs [Ht [t [k [_ [_ E]]]]]]]]; rewrite E.
    + cbn [unskipped]. rewrite Hs. now split.
    + destruct (H line (or_introl eq_refl)); congruence.
    + cbn [unskipped gen_end gen_directives map snd]. rewrite Hs.
      split; [exact IH1|]. cbn [map]. now rewrite IH2.
Qed.

(** X5.  Every directive that the parser yields comes from a line of the
    file that is not skipped: the line is the token of the directive's
    kind followed by the directive's payload, and the origin is the
    number of that line. *)
Theorem X5_directive_provenance :
  forall absolute lines idx k s origin,
    In (k, s, origin) (gen_directives (read_lines absolute idx lines)) ->
    exists i line t,
      nth_error lines i = Some line /\ skipped line = false /\
      In (t, k) KINDS /\ line = t ++ s /\
      origin = make_origin absolute (idx + i).
Proof.
  intros absolute lines. induction lines as [|line rest IH];
    intros idx k s origin H.
  - destruct H.
  - destruct (read_lines_cases absolute idx line rest)
      as [[Hs E]|[[Hs [Ht E]]|[Hs [Ht [t [k0 [Hk [Hl E]]]]]]]]; rewrite E in H.
    + destruct (IH _ _ _ _ H) as [i [l [t [H1 [H2 [H3 [H4 H5]]]]]]].
      exists (S i), l, t. repeat split; auto.
      rewrite H5. now rewrite Nat.add_succ_r.
    + destruct H.
    + destruct H as [H|H].
      * inversion H; subst. exists 0, line, t.
        rewrite Nat.add_0_r. repeat split; auto.
      * destruct (IH _ _ _ _ H) as [i [l [t' [H1 [H2 [H3 [H4 H5]]]]]]].
        exists (S i), l, t'. repeat split; auto.
        rewrite H5. now rewrite Nat.add_succ_r.
Qed.

(** ** More on the executor *)

Section ExecutorMore.

Context (prog : Program).

(** How a turn of the loop can leave [run_test]. *)
Lemma body_leave_cases k s origin p q r :
  body prog (k, s, origin) p [] = Leave prog q r ->
  (k = input /\ q = p /\
   (r = Raised BrokenPipeError \/ r = Raised (ValueError "write to closed file")))
  \/ (k = end_input /\
      r = Returned (false,
            ["At " ++ origin;
             "Tried to close the standard input but it is already closed!"]))
  \/ (k = output /\
      (r = Hangs \/
       (exists message, r = Raised (UnicodeDecodeError message)) \/
       exists line, line <> s /\
         r = Returned (false,
               ["At " ++ origin;
                "Expected" ++ Py.tab ++ Py.dquote
                   ++ Py.slice_to_minus1 s ++ Py.dquote;
                "Got" ++ Py.tab ++ Py.tab ++ Py.dquote
                   ++ Py.slice_to_minus1 line ++ Py.dquote])))
  \/ (k = end_output /\
      (r = Hangs \/
       (exists message, r = Raised (UnicodeDecodeError message)) \/
       exists line, line <> EmptyString /\
         r = Returned (false,
               ["Test failed at " ++ origin;
                "Expected End-Of-File";
                "Got" ++ Py.tab ++ Py.tab ++ Py.dquote
                   ++ Py.slice_to_minus1 line ++ Py.dquote]))).
Proof.
  destruct k; simpl; intros H.
  - left. unfold stdin_write in H.
    destruct (stdin_closed prog p).
    + inversion H; subst. auto.
    + destruct (feed prog (child prog p) s); inversion H; subst. auto.
  - right; left. destruct (stdin_close prog p) as [p' [|]]; inversion H. auto.
  - right; right; left. split; [reflexivity|].
    destruct (stdout_readline prog p) as [[[line|message] p']|]; simpl in H.
    + destruct (String.eqb line s) eqn:E; simpl in H; inversion H; subst.
      right; right. exists line. split; [|reflexivity]. now apply String.eqb_neq.
    + inversion H. right; left. eauto.
    + inversion H. now left.
  - right; right; right. split; [reflexivity|].
    destruct (stdout_readline prog p) as [[[[|c line]|message] p']|];
      simpl in H; inversion H; subst.
    + right; right. exists (String c line). split; [discriminate|reflexivity].
    + right; left. eauto.
    + now left.
Qed.

(** How the loop ends: the generator is exhausted, the generator raises,
    or the last directive processed leaves the function. *)
Lemma run_loop_end : forall g p q r,
  run_loop prog g p [] = (q, r) ->
  (r = Returned (true, []) /\ gen_end g = None
   /\ processed prog g p = gen_directives g)
  \/ (exists e, r = Raised e /\ gen_end g = Some e
      /\ processed prog g p = gen_directives g)
  \/ (exists front d q0,
        processed prog g p = (front ++ [d])%list
        /\ body prog d q0 [] = Leave prog q r).
Proof.
  induction g as [|d rest IH|e]; intros p q r H; simpl in H.
  - inversion H; subst. left. auto.
  - simpl. destruct (body prog d p []) as [p'|p' r'] eqn:B.
    + destruct (IH _ _ _ H) as [[H1 [H2 H3]]|[[e [H1 [H2 H3]]]|[front [d0 [q0 [H1 H2]]]]]].
      * left. repeat split; auto. now rewrite H3.
      * right; left. exists e. repeat split; auto. now rewrite H3.
      * right; right. exists (d :: front), d0, q0. split; [|exact H2].
        now rewrite H1.
    + inversion H; subst. right; right. exists [], d, p. split; auto.
  - inversion H; subst. right; left. exists e. auto.
Qed.

(** X6.  Whenever [run_test]'s loop returns, the verdict is either [True]
    with no diagnostics, every directive of the script having been
    processed, or [False] with the diagnostics of the last directive that
    was processed, and of that one only: the two lines of the EndInput
    failure, or the three lines of an Output mismatch or of an unexpected
    line at EndOutput.  An Input directive never gives a [False] verdict. *)
Theorem X6_verdicts :
  forall g p q passed diagnostics,
    run_loop prog g p [] = (q, Returned (passed, diagnostics)) ->
    (passed = true /\ diagnostics = [] /\ gen_end g = None
     /\ processed prog g p = gen_directives g)
    \/ (passed = false /\
        exists front k s origin,
          processed prog g p = (front ++ [(k, s, origin)])%list /\
          ((k = end_input /\
            diagnostics =
              ["At " ++ origin;
               "Tried to close the standard input but it is already closed!"])
           \/ (k = output /\ exists line, line <> s /\
               diagnostics =
                 ["At " ++ origin;
                  "Expected" ++ Py.tab ++ Py.dquote
                     ++ Py.slice_to_minus1 s ++ Py.dquote;
                  "Got" ++ Py.tab ++ Py.tab ++ Py.dquote
                     ++ Py.slice_to_minus1 line ++ Py.dquote])
           \/ (k = end_output /\ exists line, line <> EmptyString /\
               diagnostics =
                 ["Test failed at " ++ origin;
                  "Expected End-Of-File";
                  "Got" ++ Py.tab ++ Py.tab ++ Py.dquote
                     ++ Py.slice_to_minus1 line ++ Py.dquote]))).
Proof.
  intros g p q passed diagnostics H.
  destruct (run_loop_end _ _ _ _ H)
    as [[H1 [H2 H3]]|[[e [H1 _]]|[front [[[k s] origin] [q0 [H1 H2]]]]]].
  - inversion H1; subst. left. auto.
  - discriminate.
  - right.
    destruct (body_leave_cases _ _ _ _ _ _ H2)
      as [[_ [_ [E|E]]]
         |[[K E]
          |[[K [E|[[message E]|[line [N E]]]]]
           |[K [E|[[message E]|[line [N E]]]]]]]];
      try discriminate; inversion E; subst passed diagnostics;
      (split; [reflexivity|]); exists front, k, s, origin;
      (split; [exact H1|]).
    + left. auto.
    + right; left. split; [exact K|]. exists line. auto.
    + right; right. split; [exact K|]. exists line. auto.
Qed.

(** X7.  When [run_test]'s loop raises, one of three things has happened:
    the parser has raised, after every directive it yielded was processed;
    or the last directive processed is an Input directive whose write
    raised [BrokenPipeError] or, on a stdin that is closed, [ValueError:
    write to closed file]; or the last directive processed is an Output or
    an EndOutput directive and the bytes read are not UTF-8, so that
    decoding raised [UnicodeDecodeError]. *)
Theorem X7_exceptions :
  forall g p q e,
    run_loop prog g p [] = (q, Raised e) ->
    (gen_end g = Some e /\ processed prog g p = gen_directives g)
    \/ (exists front s origin,
          processed prog g p = (front ++ [(input, s, origin)])%list /\
          (e = BrokenPipeError \/ e = ValueError "write to closed file"))
    \/ (exists front k s origin message,
          processed prog g p = (front ++ [(k, s, origin)])%list /\
          (k = output \/ k = end_output) /\
          e = UnicodeDecodeError message).
Proof.
  intros g p q e H.
  destruct (run_loop_end _ _ _ _ H)
    as [[H1 _]|[[e' [H1 [H2 H3]]]|[front [[[k s] origin] [q0 [H1 H2]]]]]].
  - discriminate.
  - inversion H1; subst. left. auto.
  - right.
    destruct (body_leave_cases _ _ _ _ _ _ H2)
      as [[K [_ [E|E]]]
         |[[K E]
          |[[K [E|[[message E]|[line [N E]]]]]
           |[K [E|[[message E]|[line [N E]]]]]]]];
      try discriminate; inversion E; subst e.
    + left. subst k. exists front, s, origin. auto.
    + left. subst k. exists front, s, origin. auto.
    + right. exists front, k, s, origin, message. auto.
    + right. exists front, k, s, origin, message. auto.
Qed.




Lemma advance_stdin_closed n : forall g p g' p',
  advance prog n g p = Some (g', p') ->
  stdin_closed prog p'
    = stdin_closed prog p
      || existsb is_end_input (firstn n (gen_directives g)).
Proof.
  induction n as [|n IH]; intros g p g' p' H; simpl in H.
  - inversion H; subst. simpl. now rewrite orb_false_r.
  - destruct g as [|d rest|e]; try discriminate.
    pose proof (body_stdin_closed prog d p []) as Hc.
    destruct (body prog d p []) as [q|q r]; try discriminate.
    rewrite (IH _ _ _ _ H), Hc. simpl. now rewrite orb_assoc.
Qed.

End ExecutorMore.

(** X10.  An Input directive that the loop comes to after it has processed
    an EndInput directive makes [run_test] raise [ValueError: write to
    closed file]: the write is attempted on the closed stdin, and nothing
    in [run_test] catches the error. *)
Theorem X10_input_after_end_input :
  forall os prog path_test command n s origin rest p,
    advance prog n (read_test os path_test) (popen prog command)
      = Some (GYield (input, s, origin) rest, p) ->
    existsb is_end_input (firstn n (gen_directives (read_test os path_test)))
      = true ->
    run_test os prog path_test command
      = (p, Raised (ValueError "write to closed file")).
Proof.
  intros os prog path_test command n s origin rest p H E.
  pose proof (advance_stdin_closed prog n _ _ _ _ H) as C.
  rewrite E, orb_true_r in C.
  unfold run_test. rewrite (run_loop_advance prog n _ _ _ _ H).
  simpl. unfold stdin_write. now rewrite C.
Qed.


(** ** More on the command line *)

Lemma append_assoc (a b c : string) : (a ++ b) ++ c = a ++ b ++ c.
Proof. induction a as [|x a IH]; simpl; [reflexivity|now rewrite IH]. Qed.

Lemma append_nil_r (a : string) : a ++ EmptyString = a.
Proof. induction a as [|x a IH]; simpl; [reflexivity|now rewrite IH]. Qed.

Section CommandLineMore.

Context (os : OS) (prog : Program).

Lemma print_lines_console lines : forall c,
  print_lines c lines
    = {| stdout := stdout c
                   ++ flat (map (fun line => Py.tab ++ line ++ Py.nl) lines);
         stderr := stderr c;
         written := written c |}.
Proof.
  unfold print_lines.
  induction lines as [|line lines IH]; intros c;
    cbn [fold_left map flat fold_right].
  - rewrite append_nil_r. now destruct c.
  - rewrite IH. unfold print, print_end. cbn [stdout stderr written].
    now rewrite !append_assoc.
Qed.

(** One turn of the loop of [cmd_run] on a script for which [run_test]
    returns. *)
Lemma run_paths_step command path_test paths k c passed lines :
  snd (run_test os prog path_test command) = Returned (passed, lines) ->
  run_paths os prog command (path_test :: paths) k c
    = run_paths os prog command paths
        (k + if passed then 1 else 0)
        {| stdout := stdout c ++ file_report os prog command path_test;
           stderr := stderr c;
           written := written c |}.
Proof.
  intros H. cbn [run_paths]. unfold file_report. rewrite H.
  destruct passed; cbn [negb].
  - unfold print, print_end. cbn [stdout stderr written].
    rewrite !append_assoc. reflexivity.
  - rewrite print_lines_console.
    unfold print, print_end. cbn [stdout stderr written].
    rewrite Nat.add_0_r, !append_assoc. reflexivity.
Qed.

Lemma run_paths_returns command paths : forall k c,
  (forall p, In p paths ->
     exists v, snd (run_test os prog p command) = Returned v) ->
  run_paths os prog command paths k c
    = ({| stdout := stdout c ++ flat (map (file_report os prog command) paths);
          stderr := stderr c;
          written := written c |},
       Returned (k + length (filter (passes os prog command) paths))).
Proof.
  induction paths as [|path_test paths IH]; intros k c H.
  - simpl. rewrite append_nil_r, Nat.add_0_r. now destruct c.
  - destruct (H path_test (or_introl eq_refl)) as [[passed lines] Hv].
    rewrite (run_paths_step _ _ _ _ _ _ _ Hv).
    rewrite IH by (intros p Hp; apply H; now right).
    cbn [stdout stderr written map flat fold_right filter].
    unfold passes at 2. rewrite Hv.
    rewrite append_assoc.
    destruct passed; cbn [length];
      match goal with
      | |- (_, Returned ?a) = (_, Returned ?b) => replace a with b by lia
      end; reflexivity.
Qed.

(** X12.  When the command is found and [run_test] returns for every
    script that is discovered, [main] prints the report of each script in
    the order of discovery and then the summary, in which the first number
    counts the scripts that passed and the second all scripts; nothing goes
    to standard error and no file is created. *)
Theorem X12_reports_and_summary :
  forall argv0 sub c0 cargs,
    lookup SUBCOMMANDS sub = Some run_cmd ->
    which os c0 = true ->
    (forall p, In p (find_testpaths_in os ".") ->
       exists v, snd (run_test os prog p (c0 :: cargs)) = Returned v) ->
    main os prog (argv0 :: sub :: c0 :: cargs)
      = ({| stdout :=
              flat (map (file_report os prog (c0 :: cargs))
                        (find_testpaths_in os "."))
              ++ "["
              ++ Py.str (length (filter (passes os prog (c0 :: cargs))
                                        (find_testpaths_in os ".")))
              ++ "/" ++ Py.str (length (find_testpaths_in os "."))
              ++ "] tests passed." ++ Py.nl;
            stderr := EmptyString;
            written := [] |},
         Returned tt).
Proof.
  intros argv0 sub c0 cargs Hsub Hwhich Hall.
  unfold main. cbn [length Nat.leb nth]. rewrite Hsub.
  cbn [call tl]. unfold cmd_run. cbn [length Nat.leb tl hd].
  rewrite Hwhich. cbn [negb].
  rewrite (run_paths_returns _ _ 0 silent Hall).
  unfold print, print_end. cbn [stdout stderr written silent Nat.add].
  now rewrite !append_assoc.
Qed.

(** X13.  When [run_test] raises for a script, the run stops there,
    whatever the exception: after the reports of the scripts before it
    only the header of this script has been printed.  A [ValueError] (the
    syntax error of the parser, a write to a closed stdin, or the decoding
    of a line that is not UTF-8) is printed by [main], which then ends
    normally; any other exception leaves [main] uncaught.  When [run_test] blocks, so does [main], at the same point. *)
Theorem X13_exception_stops_the_run :
  forall argv0 sub c0 cargs before path_test after,
    lookup SUBCOMMANDS sub = Some run_cmd ->
    which os c0 = true ->
    find_testpaths_in os "." = (before ++ path_test :: after)%list ->
    (forall p, In p before ->
       exists v, snd (run_test os prog p (c0 :: cargs)) = Returned v) ->
    let header :=
      {| stdout := flat (map (file_report os prog (c0 :: cargs)) before)
                   ++ Py.nl ++ "Running test " ++ path_test ++ " ... ";
         stderr := EmptyString;
         written := [] |} in
    (forall e,
       snd (run_test os prog path_test (c0 :: cargs)) = Raised e ->
       main os prog (argv0 :: sub :: c0 :: cargs)
         = match e with
           | ValueError msg => (print header msg, Returned tt)
           | _ => (header, Raised e)
           end) /\
    (snd (run_test os prog path_test (c0 :: cargs)) = Hangs ->
     main os prog (argv0 :: sub :: c0 :: cargs) = (header, Hangs)).
Proof.
  intros argv0 sub c0 cargs before path_test after Hsub Hwhich Hfind Hbefore header.
  assert (Hmain : main os prog (argv0 :: sub :: c0 :: cargs)
            = match run_paths os prog (c0 :: cargs) (path_test :: after)
                      (0 + length (filter (passes os prog (c0 :: cargs)) before))
                      {| stdout := flat (map (file_report os prog (c0 :: cargs)) before);
                         stderr := EmptyString; written := [] |} with
              | (c, Returned k) =>
                  (print c ("[" ++ Py.str k ++ "/"
                              ++ Py.str (length (before ++ path_test :: after)%list)
                              ++ "] tests passed."), Returned tt)
              | (c, Raised (ValueError msg)) => (print c msg, Returned tt)
              | (c, Raised e) => (c, Raised e)
              | (c, Hangs) => (c, Hangs)
              end).
  { unfold main. cbn [length Nat.leb nth]. rewrite Hsub.
    cbn [call tl]. unfold cmd_run. cbn [length Nat.leb tl hd].
    rewrite Hwhich. cbn [negb]. rewrite Hfind, run_paths_app.
    rewrite (run_paths_returns _ _ 0 silent Hbefore).
    cbn [stdout stderr written silent append].
    destruct (run_paths _ _ _ _ _ _) as [c [k|[msg| | |]|]]; reflexivity. }
  split.
  - intros e He. rewrite Hmain. cbn [run_paths]. rewrite He.
    unfold print_end. cbn [stdout stderr written].
    rewrite append_nil_r. unfold header. destruct e; reflexivity.
  - intros He. rewrite Hmain. cbn [run_paths]. rewrite He.
    unfold print_end. cbn [stdout stderr written].
    rewrite append_nil_r. reflexivity.
Qed.

(** X15.  The aliases of a subcommand behave like the subcommand: [init]
    and [i] like [new] in every case, and [r] like [run] whenever a command
    to test is given (without one, the usage line names the alias that was
    typed). *)
Theorem X15_aliases :
  forall argv0 rest,
    main os prog (argv0 :: "init" :: rest) = main os prog (argv0 :: "new" :: rest)
    /\ main os prog (argv0 :: "i" :: rest) = main os prog (argv0 :: "new" :: rest)
    /\ (rest <> [] ->
        main os prog (argv0 :: "r" :: rest) = main os prog (argv0 :: "run" :: rest)).
Proof.
  intros argv0 rest. repeat split.
  intros H. destruct rest as [|c0 cargs]; [congruence|reflexivity].
Qed.

End CommandLineMore.

Lemma example_test_directives absolute :
  read_lines absolute 0 (Py.readlines example_test)
    = GYield (input, "Lorem ipsum dolor sit amet." ++ Py.nl,
              make_origin absolute 1)
        (GYield (end_input, Py.nl, make_origin absolute 2)
           (GYield (output, "      1       6      32" ++ Py.nl,
                    make_origin absolute 3)
              (GYield (end_output, Py.nl, make_origin absolute 4) GStop))).
Proof. reflexivity. Qed.

(** X16.  The script that [cmd_new] creates is one that [run_test]
    accepts: read back from the file system that holds it, it passes
    against every child that, once it has been given the line of the
    script and the end of its input, prints the line of counts of the
    script and then ends its output. *)
Theorem X16_new_script_passes :
  forall os os' prog args command s1 s2 s3 s4,
    exists_ os (new_filename args) = false ->
    open_read os' (new_filename args)
      = lookup (written (fst (cmd_new os args silent))) (new_filename args) ->
    feed prog (spawn prog command) ("Lorem ipsum dolor sit amet." ++ Py.nl)
      = Some s1 ->
    shut prog s1 = (false, s2) ->
    emit prog s2 = Some (Utf8 ("      1       6      32" ++ Py.nl), s3) ->
    emit prog s3 = Some (Utf8 EmptyString, s4) ->
    run_test os' prog (new_filename args) command
      = (Build_Popen prog true None s4, Returned (true, [])).
Proof.
  intros os os' prog args command s1 s2 s3 s4 Hnew Hopen Hfeed Hshut He1 He2.
  unfold cmd_new in Hopen. fold (new_filename args) in Hopen.
  rewrite Hnew in Hopen. cbn [fst print print_end write_file written silent app lookup]
    in Hopen.
  rewrite String.eqb_refl in Hopen.
  unfold run_test, read_test. rewrite Hopen, example_test_directives.
  cbn [run_loop body]. unfold stdin_write, popen. cbn [stdin_closed child returncode].
  rewrite Hfeed. unfold stdin_close. cbn [stdin_closed child returncode].
  rewrite Hshut. unfold stdout_readline at 1. cbn [stdin_closed child returncode].
  rewrite He1. cbn [decode]. rewrite String.eqb_refl. cbn [negb].
  unfold stdout_readline. cbn [stdin_closed child returncode].
  rewrite He2. reflexivity.
Qed.

(** ** Files, preflight checks and skipped lines *)

Section Files.

Context (os : OS) (prog : Program).

Lemma run_paths_written command paths : forall k c,
  written (fst (run_paths os prog command paths k c)) = written c.
Proof.
  induction paths as [|path_test paths IH]; intros k c.
  - reflexivity.
  - cbn [run_paths].
    destruct (snd (run_test os prog path_test command))
      as [[passed lines]|e|]; try reflexivity.
    rewrite IH. destruct passed; cbn [negb].
    + reflexivity.
    + now rewrite print_lines_console.
Qed.

Lemma cmd_run_written args c :
  written (fst (cmd_run os prog args c)) = written c.
Proof.
  unfold cmd_run.
  destruct (Nat.leb (length args) 1); [reflexivity|].
  destruct (negb (which os (hd EmptyString (tl args)))); [reflexivity|].
  pose proof (run_paths_written (tl args) (find_testpaths_in os ".") 0 c) as W.
  destruct (run_paths os prog (tl args) (find_testpaths_in os ".") 0 c)
    as [c' [k|e|]]; exact W.
Qed.

(** X17.  The program never writes to a file that exists.  The only file
    it ever creates is the one that [new], [init] or [i] is asked for (or
    [basic.tstl]), it creates it only when [os.path.exists] says that it
    is not there, and what it writes is the example script; [run] and [r]
    create no file at all. *)
Theorem X17_never_overwrites :
  forall argv path text,
    In (path, text) (written (fst (main os prog argv))) ->
    lookup SUBCOMMANDS (nth 1 argv EmptyString) = Some new_cmd /\
    path = new_filename (tl argv) /\
    exists_ os path = false /\
    text = example_test.
Proof.
  intros argv path text. unfold main.
  destruct (Nat.leb (length argv) 1); [intros []|].
  destruct (lookup SUBCOMMANDS (nth 1 argv EmptyString)) as [[|]|] eqn:L;
    [| |intros []].
  - cbn [call].
    pose proof (cmd_run_written (tl argv) silent) as W.
    destruct (cmd_run os prog (tl argv) silent) as [c [u|[msg| | |]|]];
      cbn [fst] in *; unfold print, print_end; cbn [written];
      rewrite W; intros [].
  - cbn [call]. unfold cmd_new. fold (new_filename (tl argv)).
    destruct (exists_ os (new_filename (tl argv))) eqn:E.
    + intros [].
    + cbn. intros [H|[]]. inversion H; subst. auto.
Qed.

(** X18.  The checks of [run] before any script is run.  Without a
    command to test, two lines of usage go to standard output, the second
    naming the subcommand as it was typed; with a command that
    [shutil.which] does not find, one line goes to standard error.  In
    both cases [main] ends normally and no script is run, whatever the
    directory holds. *)
Theorem X18_checks_before_the_run :
  forall argv0 sub,
    lookup SUBCOMMANDS sub = Some run_cmd ->
    main os prog [argv0; sub]
      = ({| stdout :=
              "Invalid number of parameters provided to subcommand 'run'."
              ++ Py.nl ++ "USAGE: " ++ sub ++ " <command to test>" ++ Py.nl;
            stderr := EmptyString;
            written := [] |},
         Returned tt)
    /\ forall c0 cargs,
         which os c0 = false ->
         main os prog (argv0 :: sub :: c0 :: cargs)
           = ({| stdout := EmptyString;
                 stderr := "Error: '" ++ c0 ++ "' is not executable. Exiting."
                           ++ Py.nl;
                 written := [] |},
              Returned tt).
Proof.
  intros argv0 sub Hsub. split.
  - unfold main. cbn [length Nat.leb nth]. rewrite Hsub.
    cbn [call tl]. unfold cmd_run. cbn [length Nat.leb hd].
    unfold print, print_end. cbn [stdout stderr written silent append].
    now rewrite !append_assoc.
  - intros c0 cargs Hwhich.
    unfold main. cbn [length Nat.leb nth]. rewrite Hsub.
    cbn [call tl]. unfold cmd_run. cbn [length Nat.leb tl hd].
    rewrite Hwhich. cbn [negb]. unfold print_err.
    cbn [stdout stderr written silent append].
    now rewrite !append_assoc.
Qed.

End Files.

(** ** The further theorems at sample inputs *)

(** A line that starts with a token starts with that token only. *)
Lemma X1_tokens_exclusive_witness :
  Py.startswith ("!>>" ++ Py.nl) "!>>" = true /\ "!>>" = "!>>".
Proof.
  split; [reflexivity|].
  apply (X1_tokens_exclusive ("!>>" ++ Py.nl) "!>>" "!>>");
    try reflexivity; simpl; tauto.
Defined.

Lemma X2_token_payload_round_trip_witness :
  read_lines "/work/t.tstl" 6 [">>> " ++ "  two  words " ++ Py.nl]
    = GYield (input, "  two  words " ++ Py.nl, "/work/t.tstl:7") GStop.
Proof.
  apply (X2_token_payload_round_trip "/work/t.tstl" 6 ">>> " input
           ("  two  words " ++ Py.nl) []).
  simpl. tauto.
Defined.

Lemma X3_only_syntax_errors_witness :
  gen_end (read_lines "/work/bad.tstl" 0
             ["# c" ++ Py.nl; "<<< a" ++ Py.nl; "%%% nonsense" ++ Py.nl; "???"])
    = Some (ValueError (invalid_test_message "/work/bad.tstl:3"))
  /\ exists pre line post,
       ["# c" ++ Py.nl; "<<< a" ++ Py.nl; "%%% nonsense" ++ Py.nl; "???"]
         = (pre ++ line :: post)%list /\
       (forall l, In l pre -> skipped l = true \/ starts_with_token l = true) /\
       skipped line = false /\ starts_with_token line = false /\
       ValueError (invalid_test_message "/work/bad.tstl:3")
         = ValueError (invalid_test_message
                         (make_origin "/work/bad.tstl" (0 + length pre))).
Proof.
  split; [reflexivity|].
  apply (X3_only_syntax_errors "/work/bad.tstl"
           ["# c" ++ Py.nl; "<<< a" ++ Py.nl; "%%% nonsense" ++ Py.nl; "???"] 0).
  reflexivity.
Defined.

Lemma X4_one_directive_per_line_witness :
  gen_end (read_lines "/work/x.tstl" 0
             ["# c" ++ Py.nl; "<<< a" ++ Py.nl; Py.nl; "!<<" ++ Py.nl]) = None
  /\ map snd (gen_directives
                (read_lines "/work/x.tstl" 0
                   ["# c" ++ Py.nl; "<<< a" ++ Py.nl; Py.nl; "!<<" ++ Py.nl]))
     = ["/work/x.tstl:2"; "/work/x.tstl:4"].
Proof.
  apply (X4_one_directive_per_line "/work/x.tstl"
           ["# c" ++ Py.nl; "<<< a" ++ Py.nl; Py.nl; "!<<" ++ Py.nl] 0).
  intros l [<-|[<-|[<-|[<-|[]]]]];
    first [left; reflexivity|right; reflexivity].
Defined.

Lemma X5_directive_provenance_witness :
  exists i line t,
    nth_error ["# c" ++ Py.nl; "<<< a" ++ Py.nl; Py.nl; "!<<" ++ Py.nl] i
      = Some line /\ skipped line = false /\
    In (t, output) KINDS /\ line = t ++ "a" ++ Py.nl /\
    "/work/x.tstl:2" = make_origin "/work/x.tstl" (0 + i).
Proof.
  apply (X5_directive_provenance "/work/x.tstl"
           ["# c" ++ Py.nl; "<<< a" ++ Py.nl; Py.nl; "!<<" ++ Py.nl] 0
           output ("a" ++ Py.nl) "/work/x.tstl:2").
  simpl. tauto.
Defined.

Lemma X6_verdicts_witness :
  (false = true /\
   ["At /work/t.tstl:2";
    "Expected" ++ Py.tab ++ Py.dquote ++ "world" ++ Py.dquote;
    "Got" ++ Py.tab ++ Py.tab ++ Py.dquote ++ "wrong" ++ Py.dquote] = [] /\
   gen_end (read_test two_outputs "t.tstl") = None /\
   processed (canned ["hello" ++ Py.nl; "wrong" ++ Py.nl])
             (read_test two_outputs "t.tstl")
             (popen (canned ["hello" ++ Py.nl; "wrong" ++ Py.nl]) ["prog"])
     = gen_directives (read_test two_outputs "t.tstl"))
  \/ (false = false /\
      exists front k s origin,
        processed (canned ["hello" ++ Py.nl; "wrong" ++ Py.nl])
                  (read_test two_outputs "t.tstl")
                  (popen (canned ["hello" ++ Py.nl; "wrong" ++ Py.nl]) ["prog"])
          = (front ++ [(k, s, origin)])%list /\
        ((k = end_input /\
          ["At /work/t.tstl:2";
           "Expected" ++ Py.tab ++ Py.dquote ++ "world" ++ Py.dquote;
           "Got" ++ Py.tab ++ Py.tab ++ Py.dquote ++ "wrong" ++ Py.dquote]
            = ["At " ++ origin;
               "Tried to close the standard input but it is already closed!"])
         \/ (k = output /\ exists line, line <> s /\
             ["At /work/t.tstl:2";
              "Expected" ++ Py.tab ++ Py.dquote ++ "world" ++ Py.dquote;
              "Got" ++ Py.tab ++ Py.tab ++ Py.dquote ++ "wrong" ++ Py.dquote]
               = ["At " ++ origin;
                  "Expected" ++ Py.tab ++ Py.dquote
                     ++ Py.slice_to_minus1 s ++ Py.dquote;
                  "Got" ++ Py.tab ++ Py.tab ++ Py.dquote
                     ++ Py.slice_to_minus1 line ++ Py.dquote])
         \/ (k = end_output /\ exists line, line <> EmptyString /\
             ["At /work/t.tstl:2";
              "Expected" ++ Py.tab ++ Py.dquote ++ "world" ++ Py.dquote;
              "Got" ++ Py.tab ++ Py.tab ++ Py.dquote ++ "wrong" ++ Py.dquote]
               = ["Test failed at " ++ origin;
                  "Expected End-Of-File";
                  "Got" ++ Py.tab ++ Py.tab ++ Py.dquote
                     ++ Py.slice_to_minus1 line ++ Py.dquote]))).
Proof.
  apply (X6_verdicts (canned ["hello" ++ Py.nl; "wrong" ++ Py.nl])
           (read_test two_outputs "t.tstl")
           (popen (canned ["hello" ++ Py.nl; "wrong" ++ Py.nl]) ["prog"])
           (Build_Popen (canned ["hello" ++ Py.nl; "wrong" ++ Py.nl])
                        false None [])).
  reflexivity.
Defined.

Lemma X7_exceptions_witness :
  run_loop garbled (read_test one_output "abc.tstl") (popen garbled ["prog"]) []
    = (Build_Popen garbled false None false,
       Raised (ValueError
         "'utf-8' codec can't decode byte 0xff in position 0: invalid start byte"))
  /\ ((gen_end (read_test one_output "abc.tstl")
         = Some (ValueError
             "'utf-8' codec can't decode byte 0xff in position 0: invalid start byte")
       /\ processed garbled (read_test one_output "abc.tstl")
                    (popen garbled ["prog"])
          = gen_directives (read_test one_output "abc.tstl"))
      \/ (exists front s origin,
            processed garbled (read_test one_output "abc.tstl")
                      (popen garbled ["prog"])
              = (front ++ [(input, s, origin)])%list /\
            (ValueError
               "'utf-8' codec can't decode byte 0xff in position 0: invalid start byte"
               = BrokenPipeError \/
             ValueError
               "'utf-8' codec can't decode byte 0xff in position 0: invalid start byte"
               = ValueError "write to closed file"))
      \/ (exists front k s origin message,
            processed garbled (read_test one_output "abc.tstl")
                      (popen garbled ["prog"])
              = (front ++ [(k, s, origin)])%list /\
            (k = output \/ k = end_output) /\
            ValueError
              "'utf-8' codec can't decode byte 0xff in position 0: invalid start byte"
              = UnicodeDecodeError message)).
Proof.
  split; [reflexivity|].
  apply (X7_exceptions garbled (read_test one_output "abc.tstl")
           (popen garbled ["prog"]) (Build_Popen garbled false None false)).
  reflexivity.
Defined.

Lemma X10_input_after_end_input_witness :
  run_test write_after_close (canned []) "late.tstl" ["prog"]
    = (Build_Popen (canned []) true None [],
       Raised (ValueError "write to closed file")).
Proof.
  apply (X10_input_after_end_input write_after_close (canned [])
           "late.tstl" ["prog"] 1 ("x" ++ Py.nl) "/work/late.tstl:2" GStop);
    reflexivity.
Defined.

Lemma X12_reports_and_summary_witness :
  main mixed_files (canned ["a" ++ Py.nl]) ["tstl"; "run"; "prog"]
    = ({| stdout :=
            Py.nl ++ "Running test a.tstl ... passed." ++ Py.nl ++ Py.nl
            ++ Py.nl ++ "Running test b.tstl ... FAILED." ++ Py.nl
            ++ Py.tab ++ "At /work/b.tstl:1" ++ Py.nl
            ++ Py.tab ++ "Expected" ++ Py.tab ++ Py.dquote ++ "b" ++ Py.dquote
            ++ Py.nl
            ++ Py.tab ++ "Got" ++ Py.tab ++ Py.tab ++ Py.dquote ++ "a"
            ++ Py.dquote ++ Py.nl
            ++ Py.nl ++ "[1/2] tests passed." ++ Py.nl;
          stderr := EmptyString;
          written := [] |},
       Returned tt).
Proof.
  rewrite (X12_reports_and_summary mixed_files (canned ["a" ++ Py.nl])
             "tstl" "run" "prog" []).
  - reflexivity.
  - reflexivity.
  - reflexivity.
  - intros p [<-|[<-|[]]]; eexists; reflexivity.
Defined.

Lemma X13_exception_stops_the_run_witness :
  main two_files (canned []) ["tstl"; "r"; "prog"]
    = ({| stdout := Py.nl ++ "Running test a.tstl ... " ++ Py.nl
                    ++ "Invalid test at /work/a.tstl:1"
                    ++ ". Expected line to start with one of >>> , !>>, <<< , !<<."
                    ++ Py.nl;
          stderr := EmptyString;
          written := [] |},
       Returned tt)
  /\ main write_then_close broken ["tstl"; "run"; "prog"]
     = ({| stdout := Py.nl ++ "Running test pipe.tstl ... ";
           stderr := EmptyString;
           written := [] |},
        Raised BrokenPipeError)
  /\ main one_output mute ["tstl"; "run"; "prog"]
     = ({| stdout := Py.nl ++ "Running test abc.tstl ... ";
           stderr := EmptyString;
           written := [] |},
        Hangs).
Proof.
  split; [|split].
  - destruct (X13_exception_stops_the_run two_files (canned [])
                "tstl" "r" "prog" [] [] "a.tstl" ["b.tstl"]
                eq_refl eq_refl eq_refl) as [H _].
    + intros p [].
    + now rewrite (H _ eq_refl).
  - destruct (X13_exception_stops_the_run write_then_close broken
                "tstl" "run" "prog" [] [] "pipe.tstl" []
                eq_refl eq_refl eq_refl) as [H _].
    + intros p [].
    + now rewrite (H _ eq_refl).
  - destruct (X13_exception_stops_the_run one_output mute
                "tstl" "run" "prog" [] [] "abc.tstl" []
                eq_refl eq_refl eq_refl) as [_ H].
    + intros p [].
    + now rewrite (H eq_refl).
Defined.

Lemma X15_aliases_witness :
  main mixed_files (canned ["a" ++ Py.nl]) ["tstl"; "r"; "prog"]
    = main mixed_files (canned ["a" ++ Py.nl]) ["tstl"; "run"; "prog"].
Proof.
  apply (X15_aliases mixed_files (canned ["a" ++ Py.nl]) "tstl" ["prog"]).
  discriminate.
Defined.

Lemma X16_new_script_passes_witness :
  written (fst (cmd_new empty_dir ["new"] silent)) = [("basic.tstl", example_test)]
  /\ run_test dir_with_example (canned ["      1       6      32" ++ Py.nl])
              "basic.tstl" ["wc"]
     = (Build_Popen (canned ["      1       6      32" ++ Py.nl]) true None [],
        Returned (true, [])).
Proof.
  split; [reflexivity|].
  apply (X16_new_script_passes empty_dir dir_with_example
           (canned ["      1       6      32" ++ Py.nl]) ["new"] ["wc"]
           ["      1       6      32" ++ Py.nl]
           ["      1       6      32" ++ Py.nl] [] []);
    reflexivity.
Defined.

Lemma X17_never_overwrites_witness :
  written (fst (main empty_dir (canned []) ["tstl"; "init"; "wc.tstl"]))
    = [("wc.tstl", example_test)]
  /\ (lookup SUBCOMMANDS "init" = Some new_cmd /\
      "wc.tstl" = new_filename ["init"; "wc.tstl"] /\
      exists_ empty_dir "wc.tstl" = false /\
      example_test = example_test).
Proof.
  split; [reflexivity|].
  apply (X17_never_overwrites empty_dir (canned [])
           ["tstl"; "init"; "wc.tstl"] "wc.tstl" example_test).
  left. reflexivity.
Defined.

Lemma X18_checks_before_the_run_witness :
  main mixed_files (canned []) ["tstl"; "r"]
    = ({| stdout :=
            "Invalid number of parameters provided to subcommand 'run'."
            ++ Py.nl ++ "USAGE: r <command to test>" ++ Py.nl;
          stderr := EmptyString;
          written := [] |},
       Returned tt)
  /\ main mixed_files (canned []) ["tstl"; "r"; "nowhere"; "-x"]
     = ({| stdout := EmptyString;
           stderr := "Error: 'nowhere' is not executable. Exiting." ++ Py.nl;
           written := [] |},
        Returned tt).
Proof.
  destruct (X18_checks_before_the_run mixed_files (canned []) "tstl" "r" eq_refl)
    as [H1 H2].
  split; [exact H1|]. apply (H2 "nowhere" ["-x"]). reflexivity.
Defined.
